(** * Conta Azul automation scripts: a shallow embedding

    Verification of [conta_azul_cr.py] (OAuth2 token lifecycle and the
    SQLite table sink) and of [financial_events_sync.py] (the paginated
    fetcher and the spreadsheet sink).

    Python values decoded from JSON are an inductive type; a [dict] is an
    association list, because the order of insertion decides the columns
    of both sinks.  Effects (token file, clock, HTTP calls, database,
    worksheet) are threaded through an explicit world by a state monad
    whose failures keep the world reached so far, as a Python exception
    keeps the side effects that came before it. *)

From Stdlib Require Import String Ascii ZArith List Bool Lia DecimalString.
Import ListNotations.
Local Open Scope string_scope.
Local Open Scope list_scope.
Local Open Scope Z_scope.
Set Warnings "-register-all".

(** ** Python values *)

Module Py.

(** A decoded JSON document.  Numbers are integers: the clock is read in
    whole ticks and the server counts in whole numbers.  A JSON number
    written with a fraction or an exponent, which Python reads as a
    float, has no value here. *)
Inductive json : Type :=
| JNull
| JBool (b : bool)
| JNum (z : Z)
| JStr (s : string)
| JList (l : list json)
| JDict (d : list (string * json)).

Definition dict := list (string * json).

(** The exceptions the scripts can end with. *)
Inductive exn : Type :=
| ApiError (msg : string)
| HTTPError (status : Z) (body : string)
| ConnectionError
| JSONDecodeError
| KeyError (key : string)
| TypeError
| ValueError
| AttributeError
| OverflowError
| SystemExit (msg : string)
| OperationalError
| InterfaceError
| ProgrammingError.

Inductive result (A : Type) : Type :=
| Ok (a : A)
| Raise (e : exn).
Arguments Ok {A} a.
Arguments Raise {A} e.

(** [bool(v)]: what [if v:] tests. *)
Definition truthy (v : json) : bool :=
  match v with
  | JNull => false
  | JBool b => b
  | JNum z => negb (z =? 0)
  | JStr s => negb (s =? "")%string
  | JList l => match l with [] => false | _ => true end
  | JDict d => match d with [] => false | _ => true end
  end.

(** [isinstance(v, dict)]. *)
Definition is_dict (v : json) : bool :=
  match v with JDict _ => true | _ => false end.

(** [d.get(k)] on a dict, [None] when the key is absent. *)
Fixpoint dict_get (k : string) (d : dict) : option json :=
  match d with
  | [] => None
  | (k', v) :: d' => if (k' =? k)%string then Some v else dict_get k d'
  end.

(** [k in d]. *)
Definition dict_mem (k : string) (d : dict) : bool :=
  match dict_get k d with Some _ => true | None => false end.

(** [d.keys()], in insertion order. *)
Definition keys (d : dict) : list string := map fst d.

(** [d[k] = v]: an existing key keeps its place, a new one goes last. *)
Fixpoint dict_set (k : string) (v : json) (d : dict) : dict :=
  match d with
  | [] => [(k, v)]
  | (k', v') :: d' =>
      if (k' =? k)%string then (k', v) :: d' else (k', v') :: dict_set k v d'
  end.

(** [v.get(k, default)] on any value: only a dict has [get]. *)
Definition py_get (v : json) (k : string) (default : json) : result json :=
  match v with
  | JDict d => Ok (match dict_get k d with Some x => x | None => default end)
  | _ => Raise AttributeError
  end.

(** [v[k]] with a string key. *)
Definition py_index (v : json) (k : string) : result json :=
  match v with
  | JDict d => match dict_get k d with Some x => Ok x | None => Raise (KeyError k) end
  | _ => Raise TypeError
  end.

(** The number behind a value in arithmetic and comparisons with a
    number; [True] and [False] count as 1 and 0. *)
Definition py_num (v : json) : result Z :=
  match v with
  | JNum z => Ok z
  | JBool b => Ok (if b then 1 else 0)
  | _ => Raise TypeError
  end.

(** [v[k] = x] with a string key. *)
Definition py_setitem (v : json) (k : string) (x : json) : result json :=
  match v with
  | JDict d => Ok (JDict (dict_set k x d))
  | _ => Raise TypeError
  end.

(** [a > b] for a value against a number. *)
Definition py_gt (a : json) (b : Z) : result bool :=
  match py_num a with
  | Ok z => Ok (z >? b)
  | Raise e => Raise e
  end.

(** [k in columns] for a list of strings. *)
Definition mem_str (k : string) (l : list string) : bool :=
  existsb (fun x => (x =? k)%string) l.

(** [sep.join(l)]. *)
Fixpoint join (sep : string) (l : list string) : string :=
  match l with
  | [] => ""
  | [x] => x
  | x :: l' => (x ++ sep ++ join sep l')%string
  end.

(** A state monad with exceptions; the world survives a failure. *)
Definition M (W A : Type) : Type := W -> result A * W.

Definition ret {W A} (a : A) : M W A := fun w => (Ok a, w).

Definition raise {W A} (e : exn) : M W A := fun w => (Raise e, w).

Definition bind {W A B} (c : M W A) (k : A -> M W B) : M W B :=
  fun w =>
    match c w with
    | (Ok a, w') => k a w'
    | (Raise e, w') => (Raise e, w')
    end.

(** A pure computation that may fail, run inside the monad. *)
Definition lift {W A} (r : result A) : M W A := fun w => (r, w).

End Py.

Export Py.

Declare Scope py_scope.
Delimit Scope py_scope with py.
Notation "x <- c ;; k" := (bind c (fun x => k))
  (at level 61, c at next level, right associativity) : py_scope.
Notation "c ;;; k" := (bind c (fun _ => k))
  (at level 61, right associativity) : py_scope.
Local Open Scope py_scope.

(** An HTTP response as [requests] hands it over: the status, the raw
    body, and what [response.json()] decodes ([None] when the body is not
    JSON). *)
Record http_response : Type := mk_response {
  status_code : Z;
  text : string;
  json_body : option json
}.

(** What a call to the network comes back with. *)
Inductive net_answer : Type :=
| Answer (r : http_response)
| NetFail.

(** [response.raise_for_status()] of [requests]: a 4xx or 5xx status
    raises [HTTPError], any other status passes. *)
Definition raise_for_status (r : http_response) : result unit :=
  if (400 <=? status_code r) && (status_code r <? 600)
  then Raise (HTTPError (status_code r) (text r))
  else Ok tt.

(** [response.json()]. *)
Definition response_json (r : http_response) : result json :=
  match json_body r with
  | Some j => Ok j
  | None => Raise JSONDecodeError
  end.

Section Scripts.

(** Library functions the scripts call and the development is parametric
    in: [int(s)] on a string, [json.dumps(v, ensure_ascii=False)],
    [base64.b64encode] on the bytes of a string, and
    [requests.utils.quote]. *)
Variable int_of_str : string -> option Z.
Variable json_dumps : json -> string.
Variable b64encode : string -> string.
Variable quote : string -> string.

(** ** financial_events_sync.py *)

Definition PAGE_SIZE : Z := 100.

(** [int(v)]. *)
Definition py_int (v : json) : result Z :=
  match v with
  | JNum z => Ok z
  | JBool b => Ok (if b then 1 else 0)
  | JStr s => match int_of_str s with Some z => Ok z | None => Raise ValueError end
  | _ => Raise TypeError
  end.

(** The query of one page request. *)
Record get_request : Type := mk_get {
  url : string;
  pagina : Z;
  tamanho_pagina : Z;
  data_vencimento_de : string;
  data_vencimento_ate : string;
  timeout : Z
}.

(** The fetcher at work: the answer the network gives to the n-th call,
    the requests sent so far (oldest first), and the list [collected]
    that [fetch_all] appends to.  The session's headers and TLS setting
    are fixed for a run and belong to [server]. *)
Record fetcher : Type := mk_fetcher {
  server : nat -> net_answer;
  sent : list get_request;
  collected : list json
}.

(** [session.get(endpoint, params=params, timeout=60)]. *)
Definition session_get (q : get_request) : M fetcher http_response :=
  fun w =>
    let w' := mk_fetcher (server w) (sent w ++ [q]) (collected w) in
    match server w (length (sent w)) with
    | Answer r => (Ok r, w')
    | NetFail => (Raise ConnectionError, w')
    end.

(** [collected.append(item)] and reading [collected]. *)
Definition append (item : json) : M fetcher unit :=
  fun w => (Ok tt, mk_fetcher (server w) (sent w) (collected w ++ [item])).

Definition get_collected : M fetcher (list json) :=
  fun w => (Ok (collected w), w).

(** The [for item in items] loop: every item must be a dict and is
    appended to the accumulator. *)
Fixpoint append_items (items : list json) : M fetcher unit :=
  match items with
  | [] => ret tt
  | item :: rest =>
      if is_dict item
      then append item ;;; append_items rest
      else raise (ApiError "Cada item retornado deve ser um objeto JSON")
  end.

(** The [while True] loop, one turn per unit of fuel; [None] is
    returned only when the fuel is used up before the loop breaks. *)
Fixpoint fetch_loop (fuel : nat) (endpoint start end_ : string)
    (total_expected : option Z) (page : Z) : M fetcher (option (list json)) :=
  match fuel with
  | O => ret None
  | S fuel' =>
      response <- session_get (mk_get endpoint page PAGE_SIZE start end_ 60) ;;
      lift (raise_for_status response) ;;;
      payload <- lift (response_json response) ;;
      match payload with
      | JDict p =>
          if negb (dict_mem "itens" p)
          then raise (ApiError "Resposta inesperada: campo 'itens' ausente")
          else if negb (dict_mem "itens_totais" p)
          then raise (ApiError
                        "Resposta inesperada: campo 'itens_totais' ausente")
          else
            items <- lift (py_index payload "itens") ;;
            match items with
            | JList l =>
                tv <- lift (py_index payload "itens_totais") ;;
                total <- lift (py_int tv) ;;
                let total_expected' :=
                  match total_expected with
                  | None => total
                  | Some t => t
                  end in
                append_items l ;;;
                c <- get_collected ;;
                if (Z.of_nat (length c) >=? total_expected')
                   || negb (truthy items)
                then ret (Some c)
                else fetch_loop fuel' endpoint start end_
                       (Some total_expected') (page + 1)
            | _ => raise (ApiError "Campo 'itens' deve ser uma lista")
            end
      | _ =>
          raise (ApiError
                   "Resposta inesperada: objeto JSON deve ser um dicionário")
      end
  end.

(** [fetch_all] starts from an empty [collected]. *)
Definition fetch_all (fuel : nat) (endpoint start end_ : string)
    : M fetcher (option (list json)) :=
  fun w =>
    fetch_loop fuel endpoint start end_ None 1
      (mk_fetcher (server w) (sent w) []).

(** [normalise_value]. *)
Definition normalise_value (value : json) : json :=
  match value with
  | JNull => JStr ""
  | JDict _ | JList _ => JStr (json_dumps value)
  | _ => value
  end.

(** The inner loop of [records_to_rows]: the keys of one record, each
    appended to [columns] unless it is there already. *)
Definition add_keys (columns : list string) (record : dict) : list string :=
  fold_left
    (fun cols key => if mem_str key cols then cols else cols ++ [key])
    (keys record) columns.

(** The outer loop, from the empty column list. *)
Definition collect_columns (records : list dict) : list string :=
  fold_left add_keys records [].

(** [record.get(column)], Python's [None] being [JNull]. *)
Definition record_get (record : dict) (column : string) : json :=
  match dict_get column record with
  | Some v => v
  | None => JNull
  end.

Definition records_to_rows (records : list dict) : list (list json) :=
  let columns := collect_columns records in
  match columns with
  | [] =>
      [JStr "raw_json"]
        :: map (fun record => [JStr (json_dumps (JDict record))]) records
  | _ =>
      map JStr columns
        :: map (fun record =>
                  map (fun column => normalise_value (record_get record column))
                      columns)
               records
  end.

(** A worksheet is its grid of cell values, row by row from A1. *)
Definition worksheet := list (list json).

Fixpoint overlay {A : Type} (new old : list A) : list A :=
  match new, old with
  | [], _ => old
  | x :: new', [] => x :: overlay new' []
  | x :: new', _ :: old' => x :: overlay new' old'
  end.

(** [worksheet.update("A1", values)]: the cells under [values] are
    overwritten, the others keep what they hold. *)
Fixpoint update_A1 (values : list (list json)) (ws : worksheet) : worksheet :=
  match values, ws with
  | [], _ => ws
  | r :: values', [] => r :: update_A1 values' []
  | r :: values', o :: ws' => overlay r o :: update_A1 values' ws'
  end.

(** [worksheet.clear()]. *)
Definition clear (ws : worksheet) : worksheet := [].

Definition write_to_sheet (ws : worksheet) (records : list dict) : worksheet :=
  match records with
  | [] => ws
  | _ => update_A1 (records_to_rows records) ws
  end.

(** A spreadsheet is its tabs, by title, in tab order. *)
Definition spreadsheet := list (string * worksheet).

(** [spreadsheet.worksheet(name)], [None] standing for
    [WorksheetNotFound]. *)
Fixpoint tab_get (name : string) (sp : spreadsheet) : option worksheet :=
  match sp with
  | [] => None
  | (title, ws) :: sp' =>
      if (title =? name)%string then Some ws else tab_get name sp'
  end.

(** A change made through a worksheet handle reaches the tab of that
    title. *)
Fixpoint tab_update (name : string) (f : worksheet -> worksheet)
    (sp : spreadsheet) : spreadsheet :=
  match sp with
  | [] => []
  | (title, ws) :: sp' =>
      if (title =? name)%string then (title, f ws) :: sp'
      else (title, ws) :: tab_update name f sp'
  end.

(** [spreadsheet.add_worksheet(title=name, rows=1, cols=1)]: a new
    empty tab after the others. *)
Definition add_worksheet (name : string) (sp : spreadsheet) : spreadsheet :=
  sp ++ [(name, [])].

(** [ensure_worksheet]: the tab is looked up, added when it is not
    found, and cleared; the handle returned is its title. *)
Definition ensure_worksheet (name : string) : M spreadsheet string :=
  fun sp =>
    let sp1 :=
      match tab_get name sp with
      | Some _ => sp
      | None => add_worksheet name sp
      end in
    (Ok name, tab_update name clear sp1).

(** The records [fetch_all] hands over, as [records_to_rows] reads
    them: [record.keys()] fails on anything that is not a dict. *)
Fixpoint as_records (l : list json) : result (list dict) :=
  match l with
  | [] => Ok []
  | JDict d :: l' =>
      match as_records l' with
      | Ok ds => Ok (d :: ds)
      | Raise e => Raise e
      end
  | _ :: _ => Raise AttributeError
  end.

(** [write_to_sheet] called on a worksheet handle with the list
    [fetch_all] returned. *)
Definition write_tab (handle : string) (records : list json)
    : M spreadsheet unit :=
  match records with
  | [] => ret tt
  | _ =>
      fun sp =>
        match as_records records with
        | Ok rs => (Ok tt, tab_update handle (fun ws => write_to_sheet ws rs) sp)
        | Raise e => (Raise e, sp)
        end
  end.

Definition CR_ENDPOINT : string :=
  "https://api-v2.contaazul.com/v1/financeiro/eventos-financeiros/contas-a-receber/buscar".
Definition CP_ENDPOINT : string :=
  "https://api-v2.contaazul.com/v1/financeiro/eventos-financeiros/contas-a-pagar/buscar".

(** The parsed command line. *)
Record arguments : Type := mk_args {
  arg_start : string;
  arg_end : string;
  arg_token : option string;
  arg_spreadsheet_id : option string;
  arg_service_account_file : option string;
  arg_worksheet_cr : string;
  arg_worksheet_cp : string
}.

(** [not s] for an optional string. *)
Definition missing (s : option string) : bool :=
  match s with
  | Some v => (v =? "")%string
  | None => true
  end.

(** The world of [main]: the network behind the session and the
    spreadsheet the key opens. *)
Record sync_world : Type := mk_sync {
  sync_net : fetcher;
  sync_sheets : spreadsheet
}.

Definition on_net {A : Type} (c : M fetcher A) : M sync_world A :=
  fun w =>
    let '(r, n) := c (sync_net w) in (r, mk_sync n (sync_sheets w)).

Definition on_sheets {A : Type} (c : M spreadsheet A) : M sync_world A :=
  fun w =>
    let '(r, s) := c (sync_sheets w) in (r, mk_sync (sync_net w) s).

(** [main] of [financial_events_sync.py], the arguments parsed.  The
    session only carries the token and the TLS setting to the server;
    the credentials file is taken to be readable and the spreadsheet to
    open.  Each [fetch_all] gets [fuel]; [None] is returned only when one
    of them uses it up. *)
Definition sync_main (fuel : nat) (args : arguments)
    : M sync_world (option unit) :=
  if missing (arg_token args)
  then raise (SystemExit
         "É necessário fornecer um token OAuth via --token ou variável CONTA_AZUL_TOKEN")
  else if missing (arg_spreadsheet_id args)
  then raise (SystemExit
         "É necessário fornecer o ID da planilha do Google via --spreadsheet-id ou variável GOOGLE_SHEETS_ID")
  else if missing (arg_service_account_file args)
  then raise (SystemExit
         "É necessário fornecer o caminho do arquivo JSON do service account via --service-account-file ou variável GOOGLE_APPLICATION_CREDENTIALS")
  else
    worksheet_cr <- on_sheets (ensure_worksheet (arg_worksheet_cr args)) ;;
    worksheet_cp <- on_sheets (ensure_worksheet (arg_worksheet_cp args)) ;;
    contas_receber <-
      on_net (fetch_all fuel CR_ENDPOINT (arg_start args) (arg_end args)) ;;
    match contas_receber with
    | None => ret None
    | Some receber =>
        contas_pagar <-
          on_net (fetch_all fuel CP_ENDPOINT (arg_start args) (arg_end args)) ;;
        match contas_pagar with
        | None => ret None
        | Some pagar =>
            on_sheets (write_tab worksheet_cr receber) ;;;
            on_sheets (write_tab worksheet_cp pagar) ;;;
            ret (Some tt)
        end
    end.


(** ** conta_azul_cr.py: OAuth2 tokens *)

Definition AUTH_URL : string := "https://auth.contaazul.com/oauth2/authorize".
Definition TOKEN_URL : string := "https://auth.contaazul.com/oauth2/token".

Record OAuthHandler : Type := mk_auth {
  client_id : string;
  client_secret : string;
  redirect_uri : string
}.

(** A form POST to the token endpoint. *)
Record post_request : Type := mk_post {
  post_url : string;
  post_data : list (string * json);
  post_headers : list (string * string);
  post_timeout : Z
}.

(** What the token manager does to the outside, in order. *)
Inductive event : Type :=
| Posted (q : post_request)
| Saved (tokens : json).

(** The world of the token manager: the handler's token file (absent,
    or holding a JSON document), the [CONTA_AZUL_AUTH_CODE] variable, the
    readings [time.time()] will give, the answers the token endpoint will
    give, and the trace of calls and writes so far. *)
Record world : Type := mk_world {
  token_file : option json;
  auth_code : option string;
  clock : nat -> Z;
  reads : nat;
  token_server : nat -> net_answer;
  posts : nat;
  trace : list event
}.

Definition _basic_auth_header (auth : OAuthHandler) : list (string * string) :=
  [("Authorization",
    ("Basic " ++ b64encode (client_id auth ++ ":" ++ client_secret auth))%string)].

(** [load_tokens]: [None] (here [JNull]) when the file does not exist. *)
Definition load_tokens : M world json :=
  fun w =>
    match token_file w with
    | Some j => (Ok j, w)
    | None => (Ok JNull, w)
    end.

Definition save_tokens (tokens : json) : M world unit :=
  fun w =>
    (Ok tt,
     mk_world (Some tokens) (auth_code w) (clock w) (reads w)
       (token_server w) (posts w) (trace w ++ [Saved tokens])).

(** [time.time()]. *)
Definition time_time : M world Z :=
  fun w =>
    (Ok (clock w (reads w)),
     mk_world (token_file w) (auth_code w) (clock w) (S (reads w))
       (token_server w) (posts w) (trace w)).

(** [requests.post(...)]. *)
Definition requests_post (q : post_request) : M world http_response :=
  fun w =>
    let w' := mk_world (token_file w) (auth_code w) (clock w) (reads w)
                (token_server w) (S (posts w)) (trace w ++ [Posted q]) in
    match token_server w (posts w) with
    | Answer r => (Ok r, w')
    | NetFail => (Raise ConnectionError, w')
    end.

(** [os.environ.get("CONTA_AZUL_AUTH_CODE")] and the matching [pop]. *)
Definition environ_get : M world json :=
  fun w =>
    (Ok (match auth_code w with Some c => JStr c | None => JNull end), w).

Definition environ_pop : M world unit :=
  fun w =>
    (Ok tt,
     mk_world (token_file w) None (clock w) (reads w)
       (token_server w) (posts w) (trace w)).

(** The bound on the integers a double can stand for: converting an
    integer to a float fails from there on. *)
Definition DOUBLE_LIMIT : Z := 2 ^ 1024 - 2 ^ 970.

(** The integer behind a number, converted for float arithmetic. *)
Definition as_double (v : Z) : result Z :=
  if (- DOUBLE_LIMIT <? v) && (v <? DOUBLE_LIMIT)
  then Ok v
  else Raise OverflowError.

(** [f + v] for the float [f] the clock gives and a number [v]. *)
Definition float_add (f v : Z) : result Z :=
  match as_double v with
  | Ok z => Ok (f + z)
  | Raise e => Raise e
  end.

Definition exchange_code (auth : OAuthHandler) (code : json) : M world json :=
  let data :=
    [("client_id", JStr (client_id auth));
     ("client_secret", JStr (client_secret auth));
     ("grant_type", JStr "authorization_code");
     ("code", code);
     ("redirect_uri", JStr (redirect_uri auth))] in
  let headers :=
    ("Content-Type", "application/x-www-form-urlencoded")
      :: _basic_auth_header auth in
  resp <- requests_post (mk_post TOKEN_URL data headers 30) ;;
  lift (raise_for_status resp) ;;;
  tokens <- lift (response_json resp) ;;
  now <- time_time ;;
  expires_in <- lift (py_get tokens "expires_in" (JNum 0)) ;;
  delta <- lift (py_num expires_in) ;;
  expires_at <- lift (float_add now delta) ;;
  tokens' <- lift (py_setitem tokens "expires_at" (JNum expires_at)) ;;
  save_tokens tokens' ;;;
  ret tokens'.

Definition refresh (auth : OAuthHandler) (refresh_token : json) : M world json :=
  let data :=
    [("client_id", JStr (client_id auth));
     ("client_secret", JStr (client_secret auth));
     ("grant_type", JStr "refresh_token");
     ("refresh_token", refresh_token)] in
  let headers :=
    ("Content-Type", "application/x-www-form-urlencoded")
      :: _basic_auth_header auth in
  resp <- requests_post (mk_post TOKEN_URL data headers 30) ;;
  lift (raise_for_status resp) ;;;
  tokens <- lift (response_json resp) ;;
  now <- time_time ;;
  expires_in <- lift (py_get tokens "expires_in" (JNum 0)) ;;
  delta <- lift (py_num expires_in) ;;
  expires_at <- lift (float_add now delta) ;;
  tokens' <- lift (py_setitem tokens "expires_at" (JNum expires_at)) ;;
  save_tokens tokens' ;;;
  ret tokens'.

Definition authorization_url (auth : OAuthHandler) (state : string) : string :=
  let params :=
    [("response_type", "code");
     ("client_id", client_id auth);
     ("redirect_uri", redirect_uri auth);
     ("state", state);
     ("scope", "openid profile aws.cognito.signin.user.admin")] in
  (AUTH_URL ++ "?"
   ++ join "&" (map (fun kv => fst kv ++ "=" ++ quote (snd kv)) params))%string.

(** [get_access_token].  The two [return]s inside [if tokens:] give
    [Some]; [None] falls through to the authorization code of the
    environment. *)
Definition get_access_token (auth : OAuthHandler) : M world json :=
  tokens <- load_tokens ;;
  returned <-
    (if truthy tokens
     then
       expires_at <- lift (py_get tokens "expires_at" (JNum 0)) ;;
       now <- time_time ;;
       fresh <- lift (py_gt expires_at now) ;;
       if fresh
       then
         access <- lift (py_index tokens "access_token") ;;
         ret (Some access)
       else
         rt <- lift (py_get tokens "refresh_token" JNull) ;;
         if truthy rt
         then
           rt' <- lift (py_index tokens "refresh_token") ;;
           tokens' <- refresh auth rt' ;;
           access <- lift (py_index tokens' "access_token") ;;
           ret (Some access)
         else ret None
     else ret None) ;;
  match returned with
  | Some access => ret access
  | None =>
      code <- environ_get ;;
      if negb (truthy code)
      then raise (SystemExit
             ("Defina CONTA_AZUL_AUTH_CODE com o codigo obtido em: "
              ++ authorization_url auth "state")%string)
      else
        tokens <- exchange_code auth code ;;
        environ_pop ;;;
        lift (py_index tokens "access_token")
  end.

(** ** conta_azul_cr.py: the SQLite table sink *)

(** A value bound to a statement or held in a cell. *)
Inductive sqlval : Type :=
| SqlNull
| SqlInt (z : Z)
| SqlText (s : string).

(** What the sink runs on, taken as given like the library functions
    above: the minor version of the Python 3 at work (3.10 at least, for
    the [dict | None] annotation); what SQLite stores in a column whose
    declared type is not the [TEXT] the sink itself declares; and how
    SQLite reads a [CREATE TABLE] whose column list is spliced from keys
    that are not all plain names ([None]: it refuses the statement). *)
Variable py_minor : Z.
Variable other_affinity : string -> sqlval -> sqlval.
Variable create_other : list string -> option (list (string * string)).

(** The table [CR]: declared columns (name and type) and rows, oldest
    first. *)
Record table : Type := mk_table {
  table_columns : list (string * string);
  table_rows : list (list sqlval)
}.

(** What the engine was made to do, oldest first. *)
Inductive db_op : Type :=
| OpCreate (cols : list (string * string))
| OpBegin
| OpInsert (row : list sqlval)
| OpCommit.

(** A connection: the table as committed, the table as the connection
    sees it, whether a transaction is open, and the journal. *)
Record database : Type := mk_db {
  committed : option table;
  current : option table;
  in_transaction : bool;
  journal : list db_op
}.

Definition ascii_code (c : ascii) : Z := Z.of_N (N_of_ascii c).

Definition is_letter (c : ascii) : bool :=
  let n := ascii_code c in
  ((65 <=? n) && (n <=? 90)) || ((97 <=? n) && (n <=? 122)) || (n =? 95).

Definition is_digit (c : ascii) : bool :=
  let n := ascii_code c in (48 <=? n) && (n <=? 57).

Definition upper (c : ascii) : ascii :=
  let n := ascii_code c in
  if (97 <=? n) && (n <=? 122) then ascii_of_N (Z.to_N (n - 32)) else c.

Fixpoint upper_str (s : string) : string :=
  match s with
  | EmptyString => EmptyString
  | String c s' => String (upper c) (upper_str s')
  end.

Fixpoint all_chars (f : ascii -> bool) (s : string) : bool :=
  match s with
  | EmptyString => true
  | String c s' => f c && all_chars f s'
  end.

(** Keywords SQLite does not take as a bare name. *)
Definition sql_keywords : list string :=
  ["ADD"; "ALL"; "ALTER"; "AND"; "AS"; "AUTOINCREMENT"; "BETWEEN"; "CASE";
   "CHECK"; "COLLATE"; "COMMIT"; "CONSTRAINT"; "CREATE"; "DEFAULT";
   "DEFERRABLE"; "DELETE"; "DISTINCT"; "DROP"; "ELSE"; "ESCAPE"; "EXCEPT";
   "EXISTS"; "FOREIGN"; "FROM"; "GROUP"; "HAVING"; "IN"; "INDEX"; "INSERT";
   "INTERSECT"; "INTO"; "IS"; "ISNULL"; "JOIN"; "LIMIT"; "NOT"; "NOTHING";
   "NOTNULL"; "NULL"; "ON"; "OR"; "ORDER"; "PRIMARY"; "REFERENCES";
   "RETURNING"; "SELECT"; "SET"; "TABLE"; "THEN"; "TO"; "TRANSACTION";
   "UNION"; "UNIQUE"; "UPDATE"; "USING"; "VALUES"; "WHEN"; "WHERE"].

(** A byte SQLite takes at the start of a name: a letter, an
    underscore, or any byte from 128 up. *)
Definition name_start (c : ascii) : bool :=
  is_letter c || (128 <=? ascii_code c).

(** A byte it takes inside a name: those, a digit, or a dollar sign. *)
Definition name_char (c : ascii) : bool :=
  name_start c || is_digit c || (ascii_code c =? 36).

(** A key that, spliced into the statement as it is, names a column: a
    start byte, then name bytes, and no keyword. *)
Definition bare_name (k : string) : bool :=
  match k with
  | EmptyString => false
  | String c s' =>
      name_start c
      && all_chars name_char s'
      && negb (mem_str (upper_str k) sql_keywords)
  end.

(** Column names are told apart without regard to case. *)
Fixpoint distinct_names (l : list string) : bool :=
  match l with
  | [] => true
  | k :: l' => negb (mem_str (upper_str k) (map upper_str l')) && distinct_names l'
  end.

(** The column list of a [CREATE TABLE] or [INSERT] built from these
    keys names exactly these columns: plain names, all different. *)
Definition column_names_ok (ks : list string) : bool :=
  match ks with
  | [] => false
  | _ => forallb bare_name ks && distinct_names ks
  end.

(** The text of the two statements built from keys, as the f-strings
    build them. *)
Definition create_sql (ks : list string) : string :=
  ("CREATE TABLE IF NOT EXISTS CR ("
   ++ join "," (map (fun key => key ++ " TEXT") ks) ++ ")")%string.

Definition insert_sql (cols : list string) : string :=
  ("INSERT INTO CR (" ++ join "," cols ++ ") VALUES ("
   ++ join "," (map (fun _ => "?") cols) ++ ")")%string.

(** [SELECT name FROM sqlite_master WHERE type='table' AND name='CR']
    followed by [fetchone()]: is there a table [CR]? *)
Definition select_table_CR : M database bool :=
  fun db =>
    (Ok (match current db with Some _ => true | None => false end), db).

(** The columns SQLite reads in the [CREATE TABLE] built from the
    keys: one [TEXT] column per key when the keys are plain names; none
    for an empty list (the statement is a syntax error); for other keys
    what [create_other] says. *)
Definition created_columns (ks : list string)
    : option (list (string * string)) :=
  if column_names_ok ks
  then Some (map (fun key => (key, "TEXT")) ks)
  else
    match ks with
    | [] => None
    | _ => create_other ks
    end.

(** [cursor.execute(create_sql ks)].  The module opens no transaction
    for a [CREATE]: outside a transaction it is committed at once. *)
Definition execute_create (ks : list string) : M database unit :=
  fun db =>
    match created_columns ks with
    | Some cols =>
        match current db with
        | Some _ => (Ok tt, db)
        | None =>
            let t := mk_table cols [] in
            (Ok tt,
             mk_db (if in_transaction db then committed db else Some t)
               (Some t) (in_transaction db) (journal db ++ [OpCreate cols]))
        end
    | None => (Raise OperationalError, db)
    end.

(** [PRAGMA table_info(CR)], keeping [info[1]], the column name. *)
Definition table_info_names : M database (list string) :=
  fun db =>
    (Ok (match current db with
         | Some t => map fst (table_columns t)
         | None => []
         end), db).

(** What the module raises for a value of a type it cannot bind:
    [InterfaceError] up to Python 3.10, [ProgrammingError] from 3.11. *)
Definition unsupported_type : exn :=
  if py_minor <? 11 then InterfaceError else ProgrammingError.

(** How the module binds a Python value to a [?]. *)
Definition bind_value (v : json) : result sqlval :=
  match v with
  | JNull => Ok SqlNull
  | JBool b => Ok (SqlInt (if b then 1 else 0))
  | JNum z =>
      if (- 2 ^ 63 <=? z) && (z <? 2 ^ 63) then Ok (SqlInt z)
      else Raise OverflowError
  | JStr s => Ok (SqlText s)
  | JList _ | JDict _ => Raise unsupported_type
  end.

Fixpoint bind_values (vs : list json) : result (list sqlval) :=
  match vs with
  | [] => Ok []
  | v :: vs' =>
      match bind_value v with
      | Raise e => Raise e
      | Ok x =>
          match bind_values vs' with
          | Raise e => Raise e
          | Ok xs => Ok (x :: xs)
          end
      end
  end.

(** What a column keeps of a bound value.  A column declared [TEXT],
    as the sink declares its own, stores a number as its decimal text
    and text and NULL as they are; for any other declared type SQLite's
    conversion is [other_affinity]. *)
Definition store (decltype : string) (v : sqlval) : sqlval :=
  if (decltype =? "TEXT")%string
  then
    match v with
    | SqlInt z => SqlText (NilZero.string_of_int (Z.to_int z))
    | _ => v
    end
  else other_affinity decltype v.

Fixpoint named_value (c : string) (cols : list string) (vals : list sqlval)
    : sqlval :=
  match cols, vals with
  | c' :: cols', v :: vals' =>
      if (c' =? c)%string then v else named_value c cols' vals'
  | _, _ => SqlNull
  end.

(** [cursor.execute(insert_sql cols, values)]: the statement is
    prepared, a transaction is opened if none is, the values are bound,
    and the row is added; columns not named get NULL.  The names come
    from [PRAGMA table_info]; spliced bare into the statement, names
    that are not plain make it one SQLite refuses. *)
Definition execute_insert (cols : list string) (values : list json)
    : M database unit :=
  fun db =>
    match current db with
    | None => (Raise OperationalError, db)
    | Some t =>
        if column_names_ok cols
           && forallb (fun c => mem_str c (map fst (table_columns t))) cols
        then
          let j := if in_transaction db then journal db
                   else journal db ++ [OpBegin] in
          match bind_values values with
          | Raise e => (Raise e, mk_db (committed db) (current db) true j)
          | Ok params =>
              let row :=
                map (fun col => store (snd col)
                                  (named_value (fst col) cols params))
                    (table_columns t) in
              (Ok tt,
               mk_db (committed db)
                 (Some (mk_table (table_columns t) (table_rows t ++ [row])))
                 true (j ++ [OpInsert row]))
          end
        else (Raise OperationalError, db)
    end.

(** [conn.commit()]. *)
Definition commit : M database unit :=
  fun db =>
    if in_transaction db
    then (Ok tt, mk_db (current db) (current db) false (journal db ++ [OpCommit]))
    else (Ok tt, db).

(** [sample_record.keys()]. *)
Definition py_keys (v : json) : result (list string) :=
  match v with
  | JDict d => Ok (keys d)
  | _ => Raise AttributeError
  end.

Definition ensure_table (sample_record : json) : M database unit :=
  found <- select_table_CR ;;
  if found
  then ret tt
  else
    ks <- lift (py_keys sample_record) ;;
    execute_create ks.

(** [[record.get(col) for col in existing_cols]]. *)
Fixpoint record_values (record : json) (existing_cols : list string)
    : result (list json) :=
  match existing_cols with
  | [] => Ok []
  | col :: cols' =>
      match py_get record col JNull with
      | Raise e => Raise e
      | Ok v =>
          match record_values record cols' with
          | Raise e => Raise e
          | Ok vs => Ok (v :: vs)
          end
      end
  end.

(** The [for record in records] loop of [insert_records]. *)
Fixpoint insert_each (existing_cols : list string) (records : list json)
    : M database unit :=
  match records with
  | [] => ret tt
  | record :: rest =>
      values <- lift (record_values record existing_cols) ;;
      execute_insert existing_cols values ;;;
      insert_each existing_cols rest
  end.

Definition insert_records (records : list json) : M database unit :=
  match records with
  | [] => ret tt
  | sample :: _ =>
      ensure_table sample ;;;
      existing_cols <- table_info_names ;;
      insert_each existing_cols records ;;;
      commit
  end.


(** ** Specification vocabulary *)

(** *** Pages of the listing endpoint *)

(** The payload of an answer that arrived, passed
    [raise_for_status] and decoded to a JSON object. *)
Definition page_payload (a : net_answer) : option dict :=
  match a with
  | Answer r =>
      match raise_for_status r, json_body r with
      | Ok _, Some (JDict p) => Some p
      | _, _ => None
      end
  | NetFail => None
  end.

(** Its [itens], when that is a list of objects. *)
Definition page_items (a : net_answer) : option (list json) :=
  match page_payload a with
  | Some p =>
      match dict_get "itens" p with
      | Some (JList l) => if forallb is_dict l then Some l else None
      | _ => None
      end
  | None => None
  end.

(** Its [itens_totais], when [int] takes it. *)
Definition page_total (a : net_answer) : option Z :=
  match page_payload a with
  | Some p =>
      match dict_get "itens_totais" p with
      | Some tv =>
          match py_int tv with
          | Ok t => Some t
          | Raise _ => None
          end
      | None => None
      end
  | None => None
  end.

(** A well-shaped page: an object with a list of objects under [itens]
    and an integer under [itens_totais]. *)
Definition shaped (a : net_answer) (l : list json) (t : Z) : Prop :=
  page_items a = Some l /\ page_total a = Some t.

Definition well_shaped (a : net_answer) : Prop :=
  exists l t, shaped a l t.

(** The answers still to come, the next one first. *)
Definition upcoming (w : fetcher) : nat -> net_answer :=
  fun j => server w (length (sent w) + j).

Definition items_at (s : nat -> net_answer) (j : nat) : list json :=
  match page_items (s j) with
  | Some l => l
  | None => []
  end.

(** The items of the first [n] pages, in response order. *)
Definition pages_items (s : nat -> net_answer) (n : nat) : list json :=
  flat_map (items_at s) (seq 0 n).

(** The total the first page declares. *)
Definition first_total (s : nat -> net_answer) : Z :=
  match page_total (s 0%nat) with
  | Some t => t
  | None => 0
  end.

(** The stop condition after page [j] (counted from 0), for a loop that
    entered with [c0] accumulated and total [t]: the accumulated length
    has reached the total, or page [j] is empty. *)
Definition stops_at (c0 : list json) (t : Z) (s : nat -> net_answer)
    (j : nat) : bool :=
  (Z.of_nat (length (c0 ++ pages_items s (S j))) >=? t)
  || match items_at s j with [] => true | _ => false end.

(** The requests of [n] pages in a row, from page number [page]. *)
Definition page_requests (endpoint start end_ : string) (page : Z) (n : nat)
    : list get_request :=
  map (fun j => mk_get endpoint (page + Z.of_nat j) PAGE_SIZE start end_ 60)
      (seq 0 n).

(** The envelope violations checked before any item is looked at: not
    an object, no [itens], no [itens_totais], [itens] not a list. *)
Definition broken_envelope (payload : json) : bool :=
  match payload with
  | JDict p =>
      negb (dict_mem "itens" p)
      || negb (dict_mem "itens_totais" p)
      || match dict_get "itens" p with
         | Some (JList _) => false
         | _ => true
         end
  | _ => true
  end.

(** Some item of [itens] is not an object. *)
Definition bad_item (payload : json) : bool :=
  match payload with
  | JDict p =>
      match dict_get "itens" p with
      | Some (JList l) => negb (forallb is_dict l)
      | _ => false
      end
  | _ => false
  end.

(** Any of the five violations. *)
Definition malformed (payload : json) : bool :=
  broken_envelope payload || bad_item payload.

(** [itens_totais] is there and [int] takes it. *)
Definition total_converts (payload : json) : bool :=
  match payload with
  | JDict p =>
      match dict_get "itens_totais" p with
      | Some tv => match py_int tv with Ok _ => true | Raise _ => false end
      | None => false
      end
  | _ => false
  end.

(** *** Columns and cells of the spreadsheet *)

(** Each name once, in the order of first appearance. *)
Fixpoint first_seen (l : list string) : list string :=
  match l with
  | [] => []
  | k :: l' => k :: filter (fun x => negb (x =? k)%string) (first_seen l')
  end.

(** The ordered union of the keys of all records. *)
Definition key_union (records : list dict) : list string :=
  first_seen (flat_map keys records).

(** The cell of a record under a column: empty text for a key that is
    absent or null, the JSON text of an object or array, a scalar as it
    is. *)
Definition cell (record : dict) (column : string) : json :=
  match dict_get column record with
  | None => JStr ""
  | Some JNull => JStr ""
  | Some (JDict d) => JStr (json_dumps (JDict d))
  | Some (JList l) => JStr (json_dumps (JList l))
  | Some v => v
  end.

(** *** Token records *)

(** The world after one reading of the clock. *)
Definition tick (w : world) : world :=
  mk_world (token_file w) (auth_code w) (clock w) (S (reads w))
    (token_server w) (posts w) (trace w).

(** The world after a POST was sent. *)
Definition posted (q : post_request) (w : world) : world :=
  mk_world (token_file w) (auth_code w) (clock w) (reads w)
    (token_server w) (S (posts w)) (trace w ++ [Posted q]).

(** The [expires_in] of a token set as the clock can be advanced by
    it: 0 when the set has none, and a failure when it is no number or
    an integer no double can stand for. *)
Definition expires_in_of (sd : dict) : result Z :=
  match dict_get "expires_in" sd with
  | Some v =>
      match py_num v with
      | Ok z => as_double z
      | Raise e => Raise e
      end
  | None => Ok 0
  end.

(** The requests [refresh] and [exchange_code] send. *)
Definition token_headers (auth : OAuthHandler) : list (string * string) :=
  ("Content-Type", "application/x-www-form-urlencoded")
    :: _basic_auth_header auth.

Definition refresh_request (auth : OAuthHandler) (rt : json) : post_request :=
  mk_post TOKEN_URL
    [("client_id", JStr (client_id auth));
     ("client_secret", JStr (client_secret auth));
     ("grant_type", JStr "refresh_token");
     ("refresh_token", rt)]
    (token_headers auth) 30.

Definition exchange_request (auth : OAuthHandler) (code : json) : post_request :=
  mk_post TOKEN_URL
    [("client_id", JStr (client_id auth));
     ("client_secret", JStr (client_secret auth));
     ("grant_type", JStr "authorization_code");
     ("code", code);
     ("redirect_uri", JStr (redirect_uri auth))]
    (token_headers auth) 30.

(** The world after a token set was obtained at clock reading [now]:
    one POST, one reading of the clock, the file overwritten. *)
Definition renewed (q : post_request) (tokens : json) (w : world) : world :=
  mk_world (Some tokens) (auth_code w) (clock w) (S (reads w))
    (token_server w) (S (posts w)) (trace w ++ [Posted q; Saved tokens]).

(** The part [exchange_code] and [refresh] have in common: the POST
    of a form, and what is done with the answer. *)
Definition token_request (auth : OAuthHandler) (data : list (string * json))
    : M world json :=
  resp <- requests_post (mk_post TOKEN_URL data (token_headers auth) 30) ;;
  lift (raise_for_status resp) ;;;
  tokens <- lift (response_json resp) ;;
  now <- time_time ;;
  expires_in <- lift (py_get tokens "expires_in" (JNum 0)) ;;
  delta <- lift (py_num expires_in) ;;
  expires_at <- lift (float_add now delta) ;;
  tokens' <- lift (py_setitem tokens "expires_at" (JNum expires_at)) ;;
  save_tokens tokens' ;;;
  ret tokens'.

(** The last part of [get_access_token], reached when no stored token
    was returned: the authorization code of the environment is
    exchanged, or the run ends asking for one. *)
Definition from_auth_code (auth : OAuthHandler) : M world json :=
  code <- environ_get ;;
  if negb (truthy code)
  then raise (SystemExit
         ("Defina CONTA_AZUL_AUTH_CODE com o codigo obtido em: "
          ++ authorization_url auth "state")%string)
  else
    tokens <- exchange_code auth code ;;
    environ_pop ;;;
    lift (py_index tokens "access_token").

(** What [get_access_token] does with stored tokens once the expiry
    test has failed: one refresh when they hold a refresh token, the
    authorization code otherwise. *)
Definition renew (auth : OAuthHandler) (tokens : json) : M world json :=
  rt <- lift (py_get tokens "refresh_token" JNull) ;;
  if truthy rt
  then
    rt' <- lift (py_index tokens "refresh_token") ;;
    tokens' <- refresh auth rt' ;;
    lift (py_index tokens' "access_token")
  else from_auth_code auth.

(** A value a cell can hold as it is: text, a number or a boolean. *)
Definition is_scalar (v : json) : bool :=
  match v with
  | JBool _ | JNum _ | JStr _ => true
  | _ => false
  end.

(** What a tab holds after a run wrote [records] to it: nothing for no
    record, else the rows of the records. *)
Definition tab_content (records : list dict) : worksheet :=
  match records with
  | [] => []
  | _ => records_to_rows records
  end.



(** A call that reached nothing outside: no POST, no write. *)
Definition quiet (w w' : world) : Prop :=
  trace w' = trace w /\ posts w' = posts w /\ token_file w' = token_file w.

(** A call that sent exactly one POST, and wrote the token file at most
    once, after it. *)
Definition one_post (w w' : world) : Prop :=
  exists q tl,
    trace w' = trace w ++ Posted q :: tl
    /\ posts w' = S (posts w)
    /\ ((tl = [] /\ token_file w' = token_file w)
        \/ exists t, tl = [Saved t] /\ token_file w' = Some t).

(** What asks the operator for a code. *)
Definition ask_for_code (auth : OAuthHandler) : exn :=
  SystemExit ("Defina CONTA_AZUL_AUTH_CODE com o codigo obtido em: "
              ++ authorization_url auth "state")%string.


(** *** Rows of the table *)






(** *** Sample inputs *)

Definition sample_item (i : nat) : json := JDict [("id", JNum (Z.of_nat i))].

(** A page of [n] items numbered from [first], declaring [total]. *)
Definition sample_page (first n : nat) (total : Z) : net_answer :=
  Answer (mk_response 200 ""
            (Some (JDict [("itens", JList (map sample_item (seq first n)));
                          ("itens_totais", JNum total)]))).


(** A server that sends one item per page and declares two. *)
Definition one_by_one (n : nat) : net_answer := sample_page n 1 2.

Definition sample_auth : OAuthHandler :=
  mk_auth "client" "secret" "https://example.org/callback".

(** A world with the given token file, clock reading and endpoint
    answer, nothing having happened yet. *)
Definition sample_world (file : option json) (now : Z) (a : net_answer)
    : world :=
  mk_world file None (fun _ => now) 0 (fun _ => a) 0 [].

Definition sample_tokens (expires_at : Z) : dict :=
  [("access_token", JStr "old");
   ("refresh_token", JStr "R1");
   ("expires_at", JNum expires_at)].

(** The endpoint's answer with the given status: a new access token
    good for an hour, and no refresh token. *)
Definition sample_answer (status : Z) : http_response :=
  mk_response status "body"
    (Some (JDict [("access_token", JStr "new"); ("expires_in", JNum 3600)])).

(** One item on the first page, which declares five, then [a] for
    ever. *)
Definition then_only (a : net_answer) (n : nat) : net_answer :=
  match n with
  | 0%nat => sample_page 0 1 5
  | _ => a
  end.

(** As [one_by_one], the later pages declaring another total. *)
Definition one_by_one_drifting (n : nat) : net_answer :=
  sample_page n 1 (match n with 0%nat => 2 | _ => 7 end).

(** A server whose every page holds one item and declares one. *)
Definition single_pages (n : nat) : net_answer := sample_page n 1 1.

Definition sample_args : arguments :=
  mk_args "2025-01-01" "2025-12-31" (Some "token") (Some "sheet")
    (Some "credentials.json") "CR" "CP".

Definition sample_sheets : spreadsheet :=
  [("Notes", [[JStr "keep"]]); ("CR", [[JStr "stale"]; [JStr "stale"]])].




(** ** Properties of the paginated fetcher *)

Lemma append_items_dicts (l : list json) :
  forall w, forallb is_dict l = true ->
    append_items l w
    = (Ok tt, mk_fetcher (server w) (sent w) (collected w ++ l)).
Proof.
  induction l as [|x l IH]; intros w H; simpl.
  - unfold ret. rewrite app_nil_r. now destruct w.
  - simpl in H. apply andb_true_iff in H as [Hx Hl].
    rewrite Hx. unfold bind, append. rewrite IH by assumption. simpl.
    now rewrite <- app_assoc.
Qed.

(** A non-object item stops the [for] loop with [ApiError]; the items
    before it were appended. *)
Lemma append_items_bad (l : list json) :
  forall w, forallb is_dict l = false ->
    exists msg c,
      append_items l w
      = (Raise (ApiError msg), mk_fetcher (server w) (sent w) c).
Proof.
  induction l as [|x l IH]; intros w H; simpl in H; [discriminate|].
  simpl. destruct (is_dict x) eqn:Hx; simpl in H.
  - unfold bind, append.
    destruct (IH (mk_fetcher (server w) (sent w) (collected w ++ [x])) H)
      as (msg & c & E).
    rewrite E. simpl. now exists msg, c.
  - unfold raise. exists "Cada item retornado deve ser um objeto JSON", (collected w).
    now destruct w.
Qed.

Lemma dict_get_mem (k : string) (p : dict) (v : json) :
  dict_get k p = Some v -> dict_mem k p = true.
Proof. unfold dict_mem. now intros ->. Qed.

(** One turn of the loop on a well-shaped page. *)
Lemma fetch_loop_step (fuel : nat) (e st en : string) (te : option Z)
    (page : Z) (w : fetcher) (l : list json) (t : Z) :
  shaped (server w (length (sent w))) l t ->
  fetch_loop (S fuel) e st en te page w
  = let w' := mk_fetcher (server w)
                (sent w ++ [mk_get e page PAGE_SIZE st en 60])
                (collected w ++ l) in
    let te' := match te with None => t | Some x => x end in
    if (Z.of_nat (length (collected w ++ l)) >=? te')
       || match l with [] => true | _ => false end
    then (Ok (Some (collected w ++ l)), w')
    else fetch_loop fuel e st en (Some te') (page + 1) w'.
Proof.
  intros [Hi Ht]. unfold page_items, page_total, page_payload in Hi, Ht.
  destruct (server w (length (sent w))) as [r|] eqn:Hs; [|discriminate].
  destruct (raise_for_status r) as [[]|] eqn:Hr; [|discriminate].
  destruct (json_body r) as [[| | | | |p]|] eqn:Hj; try discriminate.
  destruct (dict_get "itens" p) as [[| | | |l'|]|] eqn:Hit; try discriminate.
  destruct (forallb is_dict l') eqn:Hd; [|discriminate].
  injection Hi as ->.
  destruct (dict_get "itens_totais" p) as [tv|] eqn:Htv; [|discriminate].
  destruct (py_int tv) as [t'|] eqn:Hpi; [|discriminate].
  injection Ht as ->.
  cbn [fetch_loop]. unfold bind at 1. unfold session_get. rewrite Hs.
  unfold bind at 1. unfold lift at 1. rewrite Hr.
  unfold bind at 1. unfold lift at 1. unfold response_json. rewrite Hj.
  rewrite (dict_get_mem _ _ _ Hit), (dict_get_mem _ _ _ Htv). cbn [negb].
  unfold py_index. rewrite Hit, Htv.
  unfold bind at 1. unfold lift at 1.
  unfold bind at 1. unfold lift at 1.
  unfold bind at 1. unfold lift at 1. rewrite Hpi.
  unfold bind at 1. rewrite append_items_dicts by assumption.
  unfold bind at 1. unfold get_collected at 1.
  cbn [collected server sent truthy].
  replace (negb match l with [] => false | _ => true end)
    with (match l with [] => true | _ :: _ => false end) by now destruct l.
  destruct (_ || _); reflexivity.
Qed.

Lemma pages_items_shift (s : nat -> net_answer) (n : nat) :
  pages_items s (S n) = items_at s 0 ++ pages_items (fun j => s (S j)) n.
Proof.
  unfold pages_items. cbn [seq flat_map]. f_equal.
  rewrite <- seq_shift, flat_map_concat_map, map_map,
    <- flat_map_concat_map.
  reflexivity.
Qed.

Lemma pages_items_snoc (s : nat -> net_answer) (n : nat) :
  pages_items s (S n) = pages_items s n ++ items_at s n.
Proof.
  unfold pages_items. rewrite seq_S, flat_map_app. cbn [flat_map Nat.add].
  now rewrite app_nil_r.
Qed.

Lemma page_requests_shift (e st en : string) (page : Z) (n : nat) :
  page_requests e st en page (S n)
  = mk_get e page PAGE_SIZE st en 60 :: page_requests e st en (page + 1) n.
Proof.
  unfold page_requests. cbn [seq map]. rewrite Z.add_0_r. f_equal.
  rewrite <- seq_shift, map_map. apply map_ext. intros j.
  f_equal. lia.
Qed.

Lemma stops_at_shift (c l : list json) (t : Z) (s : nat -> net_answer)
    (j : nat) :
  items_at s 0 = l ->
  stops_at (c ++ l) t (fun i => s (S i)) j = stops_at c t s (S j).
Proof.
  intros <-. unfold stops_at.
  rewrite (pages_items_shift s (S j)), app_assoc. reflexivity.
Qed.

Lemma shaped_items_at (s : nat -> net_answer) (j : nat) (l : list json)
    (t : Z) :
  shaped (s j) l t -> items_at s j = l.
Proof. intros [H _]. unfold items_at. now rewrite H. Qed.

(** As long as the pages are well-shaped and the stop condition fails,
    the loop goes on: [n] turns fetch [n] pages and append their items. *)
Lemma fetch_loop_prefix (n : nat) :
  forall (fuel : nat) (e st en : string) (t : Z) (page : Z) (w : fetcher)
         (s : nat -> net_answer),
    (forall j, server w (length (sent w) + j) = s j) ->
    (forall j, (j < n)%nat -> well_shaped (s j)) ->
    (forall j, (j < n)%nat -> stops_at (collected w) t s j = false) ->
    fetch_loop (n + fuel) e st en (Some t) page w
    = fetch_loop fuel e st en (Some t) (page + Z.of_nat n)
        (mk_fetcher (server w)
           (sent w ++ page_requests e st en page n)
           (collected w ++ pages_items s n)).
Proof.
  induction n as [|n IH]; intros fuel e st en t page w s Hs Hw Hc.
  - cbn. rewrite Z.add_0_r, !app_nil_r. now destruct w.
  - destruct (Hw 0%nat ltac:(lia)) as (l & t0 & Hsh).
    assert (Hl : items_at s 0 = l) by (eapply shaped_items_at; eauto).
    assert (Hsh' : shaped (server w (length (sent w))) l t0).
    { rewrite <- (Nat.add_0_r (length (sent w))), Hs. exact Hsh. }
    cbn [Nat.add]. rewrite (fetch_loop_step _ _ _ _ _ _ _ _ _ Hsh').
    cbn zeta.
    pose proof (Hc 0%nat ltac:(lia)) as H0. unfold stops_at in H0.
    rewrite pages_items_shift in H0. cbn [pages_items seq flat_map] in H0.
    rewrite app_nil_r, Hl in H0. rewrite H0.
    rewrite (IH fuel e st en t (page + 1) _ (fun j => s (S j))).
    + cbn [server sent collected].
      rewrite page_requests_shift, pages_items_shift, Hl.
      rewrite <- !app_assoc. cbn [app].
      replace (page + 1 + Z.of_nat n) with (page + Z.of_nat (S n)) by lia.
      reflexivity.
    + intros j. cbn [server sent]. rewrite length_app. cbn [length].
      rewrite <- Hs. f_equal. lia.
    + intros j Hj. apply Hw. lia.
    + intros j Hj. cbn [collected]. rewrite stops_at_shift by assumption.
      apply Hc. lia.
Qed.

(** On a well-shaped first page, entering the loop with no total is
    entering it with the total that page declares. *)
Lemma fetch_loop_first (fuel : nat) (e st en : string) (page : Z)
    (w : fetcher) (l : list json) (t : Z) :
  shaped (server w (length (sent w))) l t ->
  fetch_loop fuel e st en None page w
  = fetch_loop fuel e st en (Some t) page w.
Proof.
  intros H. destruct fuel; [reflexivity|].
  now rewrite !(fetch_loop_step _ _ _ _ _ _ _ _ _ H).
Qed.

Lemma first_true (n : nat) :
  forall P : nat -> bool,
    P n = true ->
    exists k, (k <= n)%nat /\ P k = true
              /\ forall j, (j < k)%nat -> P j = false.
Proof.
  induction n as [|n IH]; intros P Hn.
  - exists 0%nat. repeat split; auto; intros; lia.
  - destruct (P 0%nat) eqn:H0.
    + exists 0%nat. repeat split; auto; intros; lia.
    + destruct (IH (fun j => P (S j)) Hn) as (k & Hk & Pk & Hlt).
      exists (S k). repeat split; auto; try lia.
      intros [|j] Hj; [assumption|]. apply Hlt. lia.
Qed.

Lemma empty_page_or_growth (s : nat -> net_answer) (n : nat) :
  (exists j, items_at s j = [])
  \/ (S n <= length (pages_items s (S n)))%nat.
Proof.
  induction n as [|n [IH|IH]].
  - destruct (items_at s 0) as [|x l] eqn:E; [left; now exists 0%nat|].
    right. rewrite pages_items_snoc, length_app, E. cbn. lia.
  - now left.
  - destruct (items_at s (S n)) as [|x l] eqn:E; [left; now exists (S n)|].
    right. rewrite pages_items_snoc, length_app, E. cbn [length]. lia.
Qed.

(** The stop condition holds at some page, whatever the stream: an
    empty page stops the loop, and pages that are not empty reach any
    total.  So there is a first page at which it holds. *)
Lemma stop_exists (c : list json) (t : Z) (s : nat -> net_answer) :
  exists k, stops_at c t s k = true
            /\ forall j, (j < k)%nat -> stops_at c t s j = false.
Proof.
  assert (H : exists n, stops_at c t s n = true).
  { destruct (empty_page_or_growth s (Z.to_nat t)) as [[j Hj]|Hg].
    - exists j. unfold stops_at. rewrite Hj. apply orb_true_r.
    - exists (Z.to_nat t). unfold stops_at. apply orb_true_iff. left.
      rewrite length_app. apply Z.geb_le. lia. }
  destruct H as [n Hn].
  destruct (first_true n (stops_at c t s) Hn) as (k & _ & Hk & Hlt).
  now exists k.
Qed.

Lemma upcoming_reset (w : fetcher) (c : list json) (j : nat) :
  server (mk_fetcher (server w) (sent w) c)
    (length (sent (mk_fetcher (server w) (sent w) c)) + j)
  = upcoming w j.
Proof. reflexivity. Qed.

(** The run of [fetch_all] up to a page [k] at which the stop condition
    holds for the first time, the pages up to [k] being well-shaped. *)
Lemma fetch_all_run (e st en : string) (w : fetcher) (k fuel : nat) :
  (forall j, (j <= k)%nat -> well_shaped (upcoming w j)) ->
  stops_at [] (first_total (upcoming w)) (upcoming w) k = true ->
  (forall j, (j < k)%nat ->
     stops_at [] (first_total (upcoming w)) (upcoming w) j = false) ->
  (k < fuel)%nat ->
  fetch_all fuel e st en w
  = (Ok (Some (pages_items (upcoming w) (S k))),
     mk_fetcher (server w)
       (sent w ++ page_requests e st en 1 (S k))
       (pages_items (upcoming w) (S k))).
Proof.
  intros Hw Hk Hlt Hf. unfold fetch_all.
  set (w0 := mk_fetcher (server w) (sent w) []).
  destruct (Hw 0%nat ltac:(lia)) as (l0 & t0 & Hsh0).
  assert (Ht0 : first_total (upcoming w) = t0).
  { unfold first_total. destruct Hsh0 as [_ H]. now rewrite H. }
  rewrite Ht0 in *.
  rewrite (fetch_loop_first fuel e st en 1 w0 l0 t0).
  2:{ unfold w0. cbn [server sent]. unfold upcoming in Hsh0.
      now rewrite Nat.add_0_r in Hsh0. }
  replace fuel with (k + S (fuel - S k))%nat by lia.
  rewrite (fetch_loop_prefix k _ e st en t0 1 w0 (upcoming w));
    auto; try (intros; apply Hw; lia).
  destruct (Hw k ltac:(lia)) as (l & t & Hsh).
  assert (Hl : items_at (upcoming w) k = l) by (eapply shaped_items_at; eauto).
  rewrite (fetch_loop_step _ _ _ _ _ _ _ l t).
  2:{ unfold w0. cbn [server sent]. unfold page_requests.
      rewrite length_app, length_map, length_seq. exact Hsh. }
  cbn zeta. unfold w0. cbn [server sent collected app].
  unfold stops_at in Hk. cbn [app] in Hk.
  rewrite pages_items_snoc, Hl in Hk. rewrite Hk.
  rewrite (pages_items_snoc _ k), Hl.
  do 2 f_equal. rewrite <- app_assoc. f_equal.
  unfold page_requests. rewrite (seq_S k), map_app. reflexivity.
Qed.


(** C2. On a stream of well-shaped answers the loop of [fetch_all]
    terminates: there is a first page at which the accumulated length has
    reached the total captured from the first page or the page is empty;
    with fuel for that many pages [fetch_all] fetches exactly the pages up
    to it and returns what it accumulated, without error.  When it stops
    on an empty page, that is what the earlier pages brought. *)
Theorem fetch_all_terminates (e st en : string) (w : fetcher) :
  (forall n, well_shaped (upcoming w n)) ->
  exists k,
    stops_at [] (first_total (upcoming w)) (upcoming w) k = true
    /\ (forall j, (j < k)%nat ->
          stops_at [] (first_total (upcoming w)) (upcoming w) j = false)
    /\ (forall fuel, (k < fuel)%nat ->
          fetch_all fuel e st en w
          = (Ok (Some (pages_items (upcoming w) (S k))),
             mk_fetcher (server w)
               (sent w ++ page_requests e st en 1 (S k))
               (pages_items (upcoming w) (S k))))
    /\ (items_at (upcoming w) k = [] ->
        pages_items (upcoming w) (S k) = pages_items (upcoming w) k).
Proof.
  intros Hw.
  destruct (stop_exists [] (first_total (upcoming w)) (upcoming w))
    as (k & Hk & Hlt).
  exists k. repeat split; auto.
  - intros fuel Hf. apply fetch_all_run; auto.
  - intros E. now rewrite pages_items_snoc, E, app_nil_r.
Qed.

(** A turn of the loop on a payload that breaks the envelope, or that
    has a non-object item under a total [int] takes, ends in [ApiError];
    a broken envelope leaves the accumulator as it was. *)
Lemma fetch_loop_malformed (fuel : nat) (e st en : string) (te : option Z)
    (page : Z) (w : fetcher) (r : http_response) (payload : json) :
  server w (length (sent w)) = Answer r ->
  raise_for_status r = Ok tt ->
  json_body r = Some payload ->
  broken_envelope payload = true
  \/ (bad_item payload = true /\ total_converts payload = true) ->
  exists msg c,
    fetch_loop (S fuel) e st en te page w
    = (Raise (ApiError msg),
       mk_fetcher (server w)
         (sent w ++ [mk_get e page PAGE_SIZE st en 60]) c)
    /\ (broken_envelope payload = true -> c = collected w).
Proof.
  intros Hs Hr Hj Hbad.
  cbn [fetch_loop]. unfold bind at 1. unfold session_get. rewrite Hs.
  unfold bind at 1. unfold lift at 1. rewrite Hr.
  unfold bind at 1. unfold lift at 1. unfold response_json. rewrite Hj.
  destruct payload as [| b | z | s | l | p];
    try (unfold raise; eexists; eexists; split; [reflexivity|reflexivity]).
  unfold broken_envelope, bad_item, total_converts, dict_mem in *.
  unfold py_index.
  destruct (dict_get "itens" p) as [v|] eqn:Hit; cbn [negb orb];
    [|unfold raise; eexists; eexists; split; reflexivity].
  destruct (dict_get "itens_totais" p) as [tv|] eqn:Htv; cbn [negb orb];
    [|unfold raise; eexists; eexists; split; reflexivity].
  unfold bind at 1. unfold lift at 1.
  destruct v as [| b | z | s | l | d];
    try (unfold raise; eexists; eexists; split; reflexivity).
  destruct Hbad as [Hb | [Hb Hc]]; [discriminate|].
  cbn [negb orb] in *.
  unfold bind at 1. unfold lift at 1.
  unfold bind at 1. unfold lift at 1.
  destruct (py_int tv) as [t|]; [|discriminate].
  apply negb_true_iff in Hb.
  destruct (append_items_bad l
              (mk_fetcher (server w)
                 (sent w ++ [mk_get e page PAGE_SIZE st en 60]) (collected w))
              Hb) as (msg & c & E).
  unfold bind at 1. rewrite E. cbn [server sent].
  exists msg, c. split; [reflexivity|discriminate].
Qed.

(** C7, as the code has it.  If the pages before page [n] are
    well-shaped and do not stop the loop, and the payload of page [n]
    is not an object, or lacks [itens], or lacks [itens_totais], or has
    an [itens] that is not a list, or has an item that is not an object
    under an [itens_totais] that [int] takes, then [fetch_all] fails with
    [ApiError] right after the request for that page.  When the envelope
    is broken (a missing [itens_totais] among the cases) nothing of that
    page is accumulated; on the first page the accumulator is still
    empty. *)
Theorem fetch_all_malformed_page (e st en : string) (w : fetcher) (n : nat)
    (r : http_response) (payload : json) (fuel : nat) :
  (forall j, (j < n)%nat -> well_shaped (upcoming w j)) ->
  (forall j, (j < n)%nat ->
     stops_at [] (first_total (upcoming w)) (upcoming w) j = false) ->
  upcoming w n = Answer r ->
  raise_for_status r = Ok tt ->
  json_body r = Some payload ->
  broken_envelope payload = true
  \/ (bad_item payload = true /\ total_converts payload = true) ->
  (n < fuel)%nat ->
  exists msg w',
    fetch_all fuel e st en w = (Raise (ApiError msg), w')
    /\ sent w' = sent w ++ page_requests e st en 1 (S n)
    /\ (broken_envelope payload = true ->
        collected w' = pages_items (upcoming w) n)
    /\ (n = 0%nat -> broken_envelope payload = true -> collected w' = []).
Proof.
  intros Hw Hc Hs Hr Hj Hbad Hf. unfold fetch_all.
  set (w0 := mk_fetcher (server w) (sent w) []).
  destruct n as [|n].
  - destruct fuel as [|fuel]; [lia|].
    destruct (fetch_loop_malformed fuel e st en None 1 w0 r payload)
      as (msg & c & E & Hcol); auto.
    { unfold upcoming in Hs. now rewrite Nat.add_0_r in Hs. }
    rewrite E. eexists; eexists; split; [reflexivity|].
    cbn [sent collected]. repeat split; auto.
  - destruct (Hw 0%nat ltac:(lia)) as (l0 & t0 & Hsh0).
    assert (Ht0 : first_total (upcoming w) = t0).
    { unfold first_total. destruct Hsh0 as [_ H]. now rewrite H. }
    rewrite Ht0 in *.
    rewrite (fetch_loop_first fuel e st en 1 w0 l0 t0).
    2:{ unfold w0. cbn [server sent]. unfold upcoming in Hsh0.
        now rewrite Nat.add_0_r in Hsh0. }
    replace fuel with (S n + S (fuel - S (S n)))%nat by lia.
    rewrite (fetch_loop_prefix (S n) _ e st en t0 1 w0 (upcoming w)); auto.
    destruct (fetch_loop_malformed (fuel - S (S n)) e st en (Some t0)
                (1 + Z.of_nat (S n))
                (mk_fetcher (server w0)
                   (sent w0 ++ page_requests e st en 1 (S n))
                   (collected w0 ++ pages_items (upcoming w) (S n)))
                r payload)
      as (msg & c & E & Hcol); auto.
    { cbn [server sent]. unfold page_requests.
      rewrite length_app, length_map, length_seq. exact Hs. }
    rewrite E. eexists; eexists; split; [reflexivity|].
    cbn [sent collected server]. unfold w0. cbn [sent collected app].
    repeat split.
    + rewrite <- app_assoc. f_equal.
      unfold page_requests. rewrite (seq_S (S n)), map_app. reflexivity.
    + intros Hb. rewrite (Hcol Hb). reflexivity.
    + discriminate.
Qed.

(** ** Properties of the spreadsheet sink *)

Lemma mem_str_app (k : string) (l1 l2 : list string) :
  mem_str k (l1 ++ l2) = mem_str k l1 || mem_str k l2.
Proof. unfold mem_str. apply existsb_app. Qed.

Lemma filter_filter {A : Type} (f g : A -> bool) (l : list A) :
  filter f (filter g l) = filter (fun x => g x && f x) l.
Proof.
  induction l as [|x l IH]; simpl; [reflexivity|].
  destruct (g x); simpl; [destruct (f x)|]; now rewrite IH.
Qed.

(** The key loop adds to [acc] the names of [l] it has not got, each at
    its first appearance. *)
Lemma add_keys_first_seen (l : list string) :
  forall acc,
    fold_left
      (fun cols key => if mem_str key cols then cols else cols ++ [key])
      l acc
    = acc ++ filter (fun x => negb (mem_str x acc)) (first_seen l).
Proof.
  induction l as [|k l IH]; intros acc; simpl.
  - now rewrite app_nil_r.
  - rewrite IH. destruct (mem_str k acc) eqn:Hk; simpl.
    + f_equal. rewrite filter_filter. apply filter_ext. intros x.
      destruct (String.eqb_spec x k) as [->|]; simpl; [now rewrite Hk|reflexivity].
    + rewrite <- app_assoc. simpl. do 2 f_equal.
      rewrite filter_filter. apply filter_ext. intros x.
      rewrite mem_str_app. simpl. rewrite orb_false_r, negb_orb.
      rewrite (String.eqb_sym k x). apply andb_comm.
Qed.

Lemma collect_columns_flat (records : list dict) :
  forall acc,
    fold_left add_keys records acc
    = fold_left
        (fun cols key => if mem_str key cols then cols else cols ++ [key])
        (flat_map keys records) acc.
Proof.
  induction records as [|r records IH]; intros acc; simpl; [reflexivity|].
  rewrite fold_left_app. apply IH.
Qed.

(** The columns [records_to_rows] computes are the ordered union of the
    keys. *)
Lemma collect_columns_union (records : list dict) :
  collect_columns records = key_union records.
Proof.
  unfold collect_columns, key_union.
  rewrite collect_columns_flat, add_keys_first_seen. simpl.
  induction (first_seen (flat_map keys records)) as [|x l IH]; simpl;
    [reflexivity|now rewrite IH].
Qed.

Lemma normalise_cell (record : dict) (column : string) :
  normalise_value (record_get record column) = cell record column.
Proof.
  unfold record_get, cell.
  destruct (dict_get column record) as [[| | | | |]|]; reflexivity.
Qed.

Lemma update_A1_cleared (values : list (list json)) :
  update_A1 values [] = values.
Proof. induction values as [|r v IH]; simpl; [reflexivity|now rewrite IH]. Qed.

(** C6, as the code has it.  When the records have at least one key
    between them, the sink writes to the cleared tab the ordered union of
    the keys as header, then one row per record in input order, each
    cell being the empty string for an absent or null key, the JSON text
    for an object or array, and the value itself for a scalar.  For the
    two records a,b and a,c the header is a, b, c and the second body row
    is 3, empty, 4. *)
Theorem sheet_rows_union (records : list dict) (ws : worksheet) :
  key_union records <> [] ->
  let written :=
    map JStr (key_union records)
      :: map (fun record => map (cell record) (key_union records)) records in
  records_to_rows records = written
  /\ write_to_sheet (clear ws) records = written
  /\ records_to_rows
       [[("a", JStr "1"); ("b", JStr "2")]; [("a", JStr "3"); ("c", JStr "4")]]
     = [[JStr "a"; JStr "b"; JStr "c"];
        [JStr "1"; JStr "2"; JStr ""];
        [JStr "3"; JStr ""; JStr "4"]].
Proof.
  intros Hne written.
  assert (E : records_to_rows records = written).
  { unfold records_to_rows. rewrite collect_columns_union.
    destruct (key_union records) as [|c cs] eqn:Hk; [contradiction|].
    unfold written. f_equal. apply map_ext. intros r.
    apply map_ext. intros col. apply normalise_cell. }
  repeat split.
  - exact E.
  - unfold write_to_sheet, clear.
    destruct records as [|r rs]; [now elim Hne|].
    rewrite update_A1_cleared. exact E.
Qed.

(** ** Properties of the token manager *)


Lemma dict_get_set_same (k : string) (v : json) (d : dict) :
  dict_get k (dict_set k v d) = Some v.
Proof.
  induction d as [|[k0 v0] d IH]; simpl.
  - now rewrite String.eqb_refl.
  - destruct (String.eqb_spec k0 k) as [->|Hn]; simpl.
    + now rewrite String.eqb_refl.
    + destruct (String.eqb_spec k0 k); [contradiction|exact IH].
Qed.

Lemma as_double_ok (z d : Z) : as_double z = Ok d -> d = z.
Proof.
  unfold as_double. destruct (_ && _); [|discriminate]. now intros [= <-].
Qed.

(** A token request the endpoint answers with a token set: the set,
    stamped with the clock reading plus its [expires_in], is written over
    the file and returned. *)
Lemma token_request_ok (auth : OAuthHandler) (data : list (string * json))
    (w : world) (r : http_response) (sd : dict) (delta : Z) :
  token_server w (posts w) = Answer r ->
  raise_for_status r = Ok tt ->
  json_body r = Some (JDict sd) ->
  expires_in_of sd = Ok delta ->
  let new := JDict (dict_set "expires_at"
                      (JNum (clock w (reads w) + delta)) sd) in
  token_request auth data w
  = (Ok new, renewed (mk_post TOKEN_URL data (token_headers auth) 30) new w).
Proof.
  intros Hs Hr Hj Hd new. unfold token_request.
  unfold bind at 1. unfold requests_post. rewrite Hs.
  unfold bind at 1. unfold lift at 1. rewrite Hr.
  unfold bind at 1. unfold lift at 1. unfold response_json. rewrite Hj.
  unfold bind at 1. unfold time_time at 1. cbn [clock reads].
  unfold bind at 1. unfold lift at 1. cbn [py_get].
  unfold expires_in_of in Hd.
  unfold bind at 1. unfold lift at 1.
  assert (Hn : py_num match dict_get "expires_in" sd with
                      | Some x => x
                      | None => JNum 0
                      end = Ok delta
               /\ as_double delta = Ok delta).
  { destruct (dict_get "expires_in" sd) as [v|].
    - destruct (py_num v) as [z|]; [|discriminate].
      pose proof (as_double_ok _ _ Hd) as ->. now split.
    - injection Hd as <-. split; reflexivity. }
  destruct Hn as [Hn Ha]. rewrite Hn.
  unfold bind at 1. unfold lift at 1. unfold float_add. rewrite Ha.
  unfold bind at 1. unfold lift at 1. cbn [py_setitem].
  unfold bind, save_tokens, ret, renewed. cbn.
  rewrite <- app_assoc. reflexivity.
Qed.

(** A token request the endpoint answers with a 4xx or 5xx status
    fails with the status and the body, right after the POST. *)
Lemma token_request_http_error (auth : OAuthHandler)
    (data : list (string * json)) (w : world) (r : http_response) :
  token_server w (posts w) = Answer r ->
  400 <= status_code r < 600 ->
  token_request auth data w
  = (Raise (HTTPError (status_code r) (text r)),
     posted (mk_post TOKEN_URL data (token_headers auth) 30) w).
Proof.
  intros Hs Hr. unfold token_request.
  unfold bind at 1. unfold requests_post. rewrite Hs.
  unfold bind at 1. unfold lift at 1. unfold raise_for_status.
  replace (400 <=? status_code r) with true by (symmetry; apply Z.leb_le; lia).
  replace (status_code r <? 600) with true by (symmetry; apply Z.ltb_lt; lia).
  reflexivity.
Qed.

(** Whatever the endpoint answers, a token request sends one POST;
    if anything follows in the trace it is the overwriting of the file,
    and otherwise the file is as before. *)
Lemma token_request_trace (auth : OAuthHandler) (data : list (string * json))
    (w : world) :
  exists res w' tl,
    token_request auth data w = (res, w')
    /\ posts w' = S (posts w)
    /\ trace w' = trace w
                  ++ Posted (mk_post TOKEN_URL data (token_headers auth) 30) :: tl
    /\ ((tl = [] /\ token_file w' = token_file w)
        \/ exists t, tl = [Saved t] /\ token_file w' = Some t).
Proof.
  unfold token_request.
  unfold bind at 1. unfold requests_post.
  destruct (token_server w (posts w)) as [r|];
    [|eexists; eexists; exists []; repeat split; auto].
  unfold bind at 1. unfold lift at 1.
  destruct (raise_for_status r) as [[]|x];
    [|eexists; eexists; exists []; repeat split; auto].
  unfold bind at 1. unfold lift at 1.
  destruct (response_json r) as [tokens|x];
    [|eexists; eexists; exists []; repeat split; auto].
  unfold bind at 1. unfold time_time at 1. cbn [clock reads].
  unfold bind at 1. unfold lift at 1.
  destruct (py_get tokens "expires_in" (JNum 0)) as [ei|x];
    [|eexists; eexists; exists []; repeat split; auto].
  unfold bind at 1. unfold lift at 1.
  destruct (py_num ei) as [delta|x];
    [|eexists; eexists; exists []; repeat split; auto].
  unfold bind at 1. unfold lift at 1.
  destruct (float_add (clock w (reads w)) delta) as [stamp|x];
    [|eexists; eexists; exists []; repeat split; auto].
  unfold bind at 1. unfold lift at 1.
  destruct (py_setitem tokens "expires_at" _) as [new|x];
    [|eexists; eexists; exists []; repeat split; auto].
  unfold bind, save_tokens, ret. cbn.
  eexists; eexists; exists [Saved new]. repeat split.
  - now rewrite <- app_assoc.
  - right. now exists new.
Qed.

Lemma exchange_code_request (auth : OAuthHandler) (code : json) :
  exchange_code auth code
  = token_request auth (post_data (exchange_request auth code)).
Proof. reflexivity. Qed.

Lemma refresh_request_eq (auth : OAuthHandler) (rt : json) :
  refresh auth rt = token_request auth (post_data (refresh_request auth rt)).
Proof. reflexivity. Qed.

Lemma dict_get_nonempty (k : string) (d : dict) (v : json) :
  dict_get k d = Some v -> truthy (JDict d) = true.
Proof. destruct d; [discriminate|reflexivity]. Qed.

(** A stored record whose expiry (0 when it has none) is not after the
    clock reading goes on to [renew]. *)
Lemma get_access_token_stale (auth : OAuthHandler) (w : world) (d : dict)
    (e : Z) :
  token_file w = Some (JDict d) ->
  truthy (JDict d) = true ->
  match dict_get "expires_at" d with
  | Some v => py_num v
  | None => Ok 0
  end = Ok e ->
  e <= clock w (reads w) ->
  get_access_token auth w = renew auth (JDict d) (tick w).
Proof.
  intros Hf Ht He Hle.
  assert (Hn : py_num match dict_get "expires_at" d with
                      | Some x => x
                      | None => JNum 0
                      end = Ok e).
  { destruct (dict_get "expires_at" d); [exact He|]. simpl. congruence. }
  unfold get_access_token, renew, from_auth_code.
  cbv [bind lift ret load_tokens time_time py_gt].
  rewrite Hf. cbv beta iota. rewrite Ht. cbn [py_get]. rewrite Hn.
  replace (e >? clock w (reads w)) with false
    by (symmetry; rewrite Z.gtb_ltb; apply Z.ltb_ge; lia).
  fold (tick w).
  destruct (truthy match dict_get "refresh_token" d with
                   | Some x => x
                   | None => JNull
                   end); [|reflexivity].
  destruct (py_index (JDict d) "refresh_token") as [rt'|x]; [|reflexivity].
  destruct (refresh auth rt' (tick w)) as [[tokens'|x] w1]; [|reflexivity].
  destruct (py_index tokens' "access_token"); reflexivity.
Qed.


Lemma from_auth_code_posts (auth : OAuthHandler) (w w' : world) (tok : json) :
  from_auth_code auth w = (Ok tok, w') -> posts w' = S (posts w).
Proof.
  unfold from_auth_code. unfold bind at 1. unfold environ_get at 1.
  destruct (negb (truthy _)); [discriminate|].
  unfold bind at 1. rewrite exchange_code_request.
  cbn [post_data exchange_request].
  destruct (token_request_trace auth
              [("client_id", JStr (client_id auth));
               ("client_secret", JStr (client_secret auth));
               ("grant_type", JStr "authorization_code");
               ("code", match auth_code w with
                        | Some c => JStr c
                        | None => JNull
                        end);
               ("redirect_uri", JStr (redirect_uri auth))] w)
    as (res & w1 & tl & E & Hp & _).
  rewrite E. destruct res as [tokens|x]; [|discriminate].
  unfold bind, environ_pop, lift.
  destruct (py_index tokens "access_token"); [|discriminate].
  intros H. injection H as _ <-. exact Hp.
Qed.

Lemma renew_posts (auth : OAuthHandler) (tokens : json) (w w' : world)
    (tok : json) :
  renew auth tokens w = (Ok tok, w') -> posts w' = S (posts w).
Proof.
  unfold renew. unfold bind at 1. unfold lift at 1.
  destruct (py_get tokens "refresh_token" JNull) as [rt|x]; [|discriminate].
  destruct (truthy rt); [|apply from_auth_code_posts].
  unfold bind at 1. unfold lift at 1.
  destruct (py_index tokens "refresh_token") as [rt'|x]; [|discriminate].
  unfold bind at 1. rewrite refresh_request_eq.
  cbn [post_data refresh_request].
  destruct (token_request_trace auth
              [("client_id", JStr (client_id auth));
               ("client_secret", JStr (client_secret auth));
               ("grant_type", JStr "refresh_token");
               ("refresh_token", rt')] w)
    as (res & w1 & tl & E & Hp & _).
  rewrite E. destruct res as [tokens'|x]; [|discriminate].
  unfold lift. destruct (py_index tokens' "access_token"); [|discriminate].
  intros H. injection H as _ <-. exact Hp.
Qed.

(** C3. A stored record whose [expires_at] is strictly after the clock
    reading: [get_access_token] returns the stored [access_token]; the
    world afterwards differs only by the one reading of the clock, so no
    POST was sent and the token file was not written. *)
Theorem get_access_token_fast_path (auth : OAuthHandler) (w : world)
    (d : dict) (ev : json) (e : Z) (tok : json) :
  token_file w = Some (JDict d) ->
  dict_get "expires_at" d = Some ev ->
  py_num ev = Ok e ->
  clock w (reads w) < e ->
  dict_get "access_token" d = Some tok ->
  get_access_token auth w = (Ok tok, tick w)
  /\ token_file (tick w) = token_file w
  /\ posts (tick w) = posts w
  /\ trace (tick w) = trace w.
Proof.
  intros Hf Hev He Hlt Htok. repeat split.
  unfold get_access_token.
  cbv [bind lift ret load_tokens time_time py_gt].
  rewrite Hf. cbv beta iota. rewrite (dict_get_nonempty _ _ _ Hev).
  cbn [py_get py_index]. rewrite Hev, He.
  replace (e >? clock w (reads w)) with true
    by (symmetry; rewrite Z.gtb_ltb; apply Z.ltb_lt; lia).
  rewrite Htok. reflexivity.
Qed.


(** C8, as the code has it.  When the token endpoint answers the
    code-exchange or the refresh POST with a 4xx or 5xx status, the
    operation fails with [HTTPError] carrying the status code and the
    response body; the POST is all that happened, and the token file is
    as it was. *)
Theorem token_post_http_error (auth : OAuthHandler) (w : world)
    (r : http_response) (code rt : json) :
  token_server w (posts w) = Answer r ->
  400 <= status_code r < 600 ->
  exchange_code auth code w
  = (Raise (HTTPError (status_code r) (text r)),
     posted (exchange_request auth code) w)
  /\ refresh auth rt w
     = (Raise (HTTPError (status_code r) (text r)),
        posted (refresh_request auth rt) w)
  /\ (forall q, token_file (posted q w) = token_file w
                /\ trace (posted q w) = trace w ++ [Posted q]).
Proof.
  intros Hs Hr. repeat split.
  - rewrite exchange_code_request.
    now rewrite (token_request_http_error auth _ w r).
  - rewrite refresh_request_eq.
    now rewrite (token_request_http_error auth _ w r).
Qed.

(** C9, as the code has it.  A stored record without [expires_at] is
    read as expiring at 0: once the clock is not negative
    [get_access_token] goes on to
    refresh or to the code exchange, and returns a token only after a
    POST.  A token set the endpoint sends without [expires_in] is saved,
    by [exchange_code] and by [refresh] alike, with [expires_at] equal to
    the clock reading; a later [get_access_token] that finds it in the
    file, the clock not having gone back, again goes on to renew it. *)
Theorem missing_expiry_means_expired (auth : OAuthHandler) :
  (forall (w : world) (d : dict),
     token_file w = Some (JDict d) ->
     dict_get "expires_at" d = None ->
     0 <= clock w (reads w) ->
     get_access_token auth w
     = (if truthy (JDict d)
        then renew auth (JDict d) (tick w)
        else from_auth_code auth w)
     /\ forall tok w',
          get_access_token auth w = (Ok tok, w') -> posts w' = S (posts w))
  /\ (forall (w : world) (r : http_response) (sd : dict) (code rt : json),
        token_server w (posts w) = Answer r ->
        raise_for_status r = Ok tt ->
        json_body r = Some (JDict sd) ->
        dict_get "expires_in" sd = None ->
        let saved := JDict (dict_set "expires_at"
                              (JNum (clock w (reads w))) sd) in
        exchange_code auth code w
        = (Ok saved, renewed (exchange_request auth code) saved w)
        /\ refresh auth rt w
           = (Ok saved, renewed (refresh_request auth rt) saved w)
        /\ forall w2,
             token_file w2 = Some saved ->
             clock w (reads w) <= clock w2 (reads w2) ->
             get_access_token auth w2 = renew auth saved (tick w2)
             /\ forall tok w',
                  get_access_token auth w2 = (Ok tok, w') ->
                  posts w' = S (posts w2)).
Proof.
  split.
  - intros w d Hf Hn Hc.
    assert (E : get_access_token auth w
                = if truthy (JDict d)
                  then renew auth (JDict d) (tick w)
                  else from_auth_code auth w).
    { destruct (truthy (JDict d)) eqn:Ht.
      - apply (get_access_token_stale auth w d 0); auto. now rewrite Hn.
      - unfold get_access_token, from_auth_code.
        cbv [bind lift ret load_tokens]. rewrite Hf. cbv beta iota.
        now rewrite Ht. }
    split; [exact E|].
    intros tok w' H. rewrite E in H. destruct (truthy (JDict d)).
    + apply renew_posts in H. exact H.
    + now apply from_auth_code_posts in H.
  - intros w r sd code rt Hs Hr Hj Hn saved.
    assert (Hd : expires_in_of sd = Ok 0).
    { unfold expires_in_of. now rewrite Hn. }
    split; [|split].
    + rewrite exchange_code_request.
      rewrite (token_request_ok auth _ w r sd 0); auto.
      now rewrite Z.add_0_r.
    + rewrite refresh_request_eq.
      rewrite (token_request_ok auth _ w r sd 0); auto.
      now rewrite Z.add_0_r.
    + intros w2 Hf2 Hc2.
      assert (E : get_access_token auth w2 = renew auth saved (tick w2)).
      { apply (get_access_token_stale auth w2 _ (clock w (reads w))); auto.
        - eapply dict_get_nonempty. apply dict_get_set_same.
        - now rewrite dict_get_set_same. }
      split; [exact E|].
      intros tok w' Hg. rewrite E in Hg. apply renew_posts in Hg. exact Hg.
Qed.

(** ** Properties of the table sink *)

(** C5.  The two records a,b and a,c, no table being there: the sink
    creates the table with the columns a and b of the first record,
    opens one transaction, inserts the row 1, 2 and then the row 3, NULL
    (the value under c is stored nowhere), and commits once, after the
    second row. *)
Theorem table_sink_first_record_schema (j : list db_op) :
  let cols := [("a", "TEXT"); ("b", "TEXT")] in
  let t := mk_table cols
             [[SqlText "1"; SqlText "2"]; [SqlText "3"; SqlNull]] in
  insert_records
    [JDict [("a", JStr "1"); ("b", JStr "2")];
     JDict [("a", JStr "3"); ("c", JStr "4")]]
    (mk_db None None false j)
  = (Ok tt,
     mk_db (Some t) (Some t) false
       (j ++ [OpCreate cols; OpBegin;
              OpInsert [SqlText "1"; SqlText "2"];
              OpInsert [SqlText "3"; SqlNull];
              OpCommit])).
Proof.
  cbv -[app]. rewrite <- !app_assoc. reflexivity.
Qed.

(** C10.  On the empty list [insert_records] returns at once: the
    database is the one it was given, with no table created, no row
    inserted, no transaction opened and nothing committed. *)
Theorem insert_records_empty (db : database) :
  insert_records [] db = (Ok tt, db).
Proof. reflexivity. Qed.

(** ** Further properties of the paginated fetcher *)

(** A [for] loop stopped by a non-object item has appended the items
    before it, all of them objects. *)
Lemma append_items_bad_prefix (l : list json) :
  forall w, forallb is_dict l = false ->
    exists msg l',
      append_items l w
      = (Raise (ApiError msg),
         mk_fetcher (server w) (sent w) (collected w ++ l'))
      /\ forallb is_dict l' = true.
Proof.
  induction l as [|x l IH]; intros w H; simpl in H; [discriminate|].
  simpl. destruct (is_dict x) eqn:Hx; simpl in H.
  - unfold bind, append.
    destruct (IH (mk_fetcher (server w) (sent w) (collected w ++ [x])) H)
      as (msg & l' & E & Hd).
    rewrite E. cbn [server sent collected].
    exists msg, (x :: l'). rewrite <- app_assoc. split; [reflexivity|].
    simpl. now rewrite Hx.
  - unfold raise. exists "Cada item retornado deve ser um objeto JSON", [].
    rewrite app_nil_r. split; [now destruct w|reflexivity].
Qed.

(** What one turn of the loop can do: the answer is a well-shaped page,
    or the turn fails, whatever the fuel, right after its request, with
    at most some objects of that page appended. *)
Lemma fetch_loop_turn (e st en : string) (te : option Z) (page : Z)
    (w : fetcher) :
  (exists l t, shaped (server w (length (sent w))) l t)
  \/ (exists x l',
        forallb is_dict l' = true
        /\ forall fuel,
             fetch_loop (S fuel) e st en te page w
             = (Raise x,
                mk_fetcher (server w)
                  (sent w ++ [mk_get e page PAGE_SIZE st en 60])
                  (collected w ++ l'))).
Proof.
  unfold shaped, page_items, page_total, page_payload.
  destruct (server w (length (sent w))) as [r|] eqn:Hs.
  2:{ right. exists ConnectionError, []. split; [reflexivity|]. intros fuel.
      cbn [fetch_loop]. unfold bind at 1. unfold session_get. rewrite Hs.
      now rewrite app_nil_r. }
  destruct (raise_for_status r) as [[]|x] eqn:Hr.
  2:{ right. exists x, []. split; [reflexivity|]. intros fuel.
      cbn [fetch_loop]. unfold bind at 1. unfold session_get. rewrite Hs.
      unfold bind at 1. unfold lift at 1. rewrite Hr.
      now rewrite app_nil_r. }
  assert (Hfail : forall x,
             (forall fuel c,
                (payload <- lift (response_json r) ;;
                 match payload with
                 | JDict p =>
                     if negb (dict_mem "itens" p)
                     then raise (ApiError "Resposta inesperada: campo 'itens' ausente")
                     else if negb (dict_mem "itens_totais" p)
                     then raise (ApiError
                                   "Resposta inesperada: campo 'itens_totais' ausente")
                     else
                       items <- lift (py_index payload "itens") ;;
                       match items with
                       | JList l =>
                           tv <- lift (py_index payload "itens_totais") ;;
                           total <- lift (py_int tv) ;;
                           append_items l ;;;
                           c <- get_collected ;;
                           if (Z.of_nat (length c)
                               >=? match te with None => total | Some t => t end)
                              || negb (truthy items)
                           then ret (Some c)
                           else fetch_loop fuel e st en
                                  (Some match te with None => total | Some t => t end)
                                  (page + 1)
                       | _ => raise (ApiError "Campo 'itens' deve ser uma lista")
                       end
                 | _ =>
                     raise (ApiError
                              "Resposta inesperada: objeto JSON deve ser um dicionário")
                 end) c = (Raise x, c)) ->
             exists x l',
               forallb is_dict l' = true
               /\ forall fuel,
                    fetch_loop (S fuel) e st en te page w
                    = (Raise x,
                       mk_fetcher (server w)
                         (sent w ++ [mk_get e page PAGE_SIZE st en 60])
                         (collected w ++ l'))).
  { intros x H. exists x, []. split; [reflexivity|]. intros fuel.
    cbn [fetch_loop]. unfold bind at 1. unfold session_get. rewrite Hs.
    unfold bind at 1. unfold lift at 1. rewrite Hr.
    rewrite H. now rewrite app_nil_r. }
  destruct (json_body r) as [payload|] eqn:Hj.
  2:{ right. apply (Hfail JSONDecodeError). intros fuel c.
      unfold bind, lift, response_json. now rewrite Hj. }
  destruct payload as [| b | z | s | l0 | p];
    try (right; eapply Hfail; intros fuel c;
         unfold bind, lift, response_json; rewrite Hj; reflexivity).
  destruct (dict_get "itens" p) as [v|] eqn:Hit.
  2:{ right. eapply Hfail. intros fuel c.
      unfold bind at 1. unfold lift, response_json. rewrite Hj.
      unfold dict_mem. rewrite Hit. reflexivity. }
  destruct (dict_get "itens_totais" p) as [tv|] eqn:Htv.
  2:{ right. eapply Hfail. intros fuel c.
      unfold bind at 1. unfold lift, response_json. rewrite Hj.
      unfold dict_mem. rewrite Hit, Htv. reflexivity. }
  destruct v as [| b | z | s | l | d];
    try (right; eapply Hfail; intros fuel c;
         unfold bind at 1; unfold lift at 1; unfold response_json; rewrite Hj;
         unfold dict_mem; rewrite Hit, Htv; cbn [negb];
         unfold bind, lift, py_index; rewrite Hit; reflexivity).
  destruct (py_int tv) as [t|x] eqn:Hpi.
  2:{ right. eapply Hfail. intros fuel c.
      unfold bind at 1. unfold lift at 1. unfold response_json. rewrite Hj.
      unfold dict_mem. rewrite Hit, Htv. cbn [negb].
      unfold bind at 1. unfold lift at 1. unfold py_index. rewrite Hit, Htv.
      unfold bind at 1. unfold lift at 1.
      unfold bind at 1. unfold lift at 1. rewrite Hpi. reflexivity. }
  destruct (forallb is_dict l) eqn:Hd.
  - left. now exists l, t.
  - right.
    destruct (append_items_bad_prefix l
                (mk_fetcher (server w)
                   (sent w ++ [mk_get e page PAGE_SIZE st en 60]) (collected w))
                Hd) as (msg & l' & E & Hl').
    exists (ApiError msg), l'. split; [exact Hl'|]. intros fuel.
    cbn [fetch_loop]. unfold bind at 1. unfold session_get. rewrite Hs.
    unfold bind at 1. unfold lift at 1. rewrite Hr.
    unfold bind at 1. unfold lift at 1. unfold response_json. rewrite Hj.
    unfold dict_mem. rewrite Hit, Htv. cbn [negb].
    unfold bind at 1. unfold lift at 1. unfold py_index. rewrite Hit, Htv.
    unfold bind at 1. unfold lift at 1.
    unfold bind at 1. unfold lift at 1. rewrite Hpi.
    unfold bind at 1. rewrite E. reflexivity.
Qed.


(** With fuel beyond what is missing to the total, the loop ends before
    the fuel does. *)
Lemma fetch_loop_bounded (fuel : nat) :
  forall (e st en : string) (t : Z) (page : Z) (w : fetcher),
    (Z.to_nat (t - Z.of_nat (length (collected w))) < fuel)%nat ->
    fst (fetch_loop fuel e st en (Some t) page w) <> Ok None.
Proof.
  induction fuel as [|fuel IH]; intros e st en t page w Hf; [lia|].
  destruct (fetch_loop_turn e st en (Some t) page w)
    as [(l & t' & Hsh)|(x & l' & _ & E)].
  - rewrite (fetch_loop_step _ _ _ _ _ _ _ _ _ Hsh). cbn zeta.
    destruct (Z.of_nat (length (collected w ++ l)) >=? t) eqn:Hge;
      [cbn; discriminate|].
    destruct l as [|x l]; [cbn; discriminate|]. cbn [orb].
    apply IH. cbn [collected].
    rewrite Z.geb_leb in Hge. apply Z.leb_gt in Hge.
    rewrite length_app in *. cbn [length] in *. lia.
  - rewrite E. cbn. discriminate.
Qed.

(** An outcome reached with some fuel is the outcome with more. *)
Lemma fetch_loop_more_fuel (fuel : nat) :
  forall (e st en : string) (te : option Z) (page : Z) (w : fetcher),
    fst (fetch_loop fuel e st en te page w) <> Ok None ->
    fetch_loop (S fuel) e st en te page w
    = fetch_loop fuel e st en te page w.
Proof.
  induction fuel as [|fuel IH]; intros e st en te page w H.
  - cbn in H. congruence.
  - destruct (fetch_loop_turn e st en te page w)
      as [(l & t' & Hsh)|(x & l' & _ & E)].
    + rewrite (fetch_loop_step (S fuel) _ _ _ _ _ _ _ _ Hsh).
      rewrite (fetch_loop_step fuel _ _ _ _ _ _ _ _ Hsh) in *.
      cbn zeta in *. destruct (_ || _); [reflexivity|]. now apply IH.
    + now rewrite !E.
Qed.

Lemma fetch_loop_enough_fuel (n fuel : nat) (e st en : string)
    (te : option Z) (page : Z) (w : fetcher) :
  fst (fetch_loop n e st en te page w) <> Ok None ->
  (n <= fuel)%nat ->
  fetch_loop fuel e st en te page w = fetch_loop n e st en te page w.
Proof.
  intros H Hle. induction Hle as [|m Hle IH]; [reflexivity|].
  rewrite fetch_loop_more_fuel; [exact IH|]. now rewrite IH.
Qed.

(** X1.  Whatever the server answers, well-shaped or not, [fetch_all]
    ends: there is an amount of fuel from which on the outcome is one
    and the same, a list of records or an exception, never a loop still
    running. *)
Theorem fetch_all_always_ends (e st en : string) (w : fetcher) :
  exists n r w',
    r <> Ok None
    /\ forall fuel, (n <= fuel)%nat -> fetch_all fuel e st en w = (r, w').
Proof.
  unfold fetch_all. set (w0 := mk_fetcher (server w) (sent w) []).
  destruct (fetch_loop_turn e st en None 1 w0)
    as [(l & t & Hsh)|(x & l' & _ & E)].
  - pose (n := S (Z.to_nat (t - Z.of_nat (length (collected w0))))).
    assert (Hn : fst (fetch_loop n e st en None 1 w0) <> Ok None).
    { rewrite (fetch_loop_first n e st en 1 w0 l t Hsh).
      apply fetch_loop_bounded. unfold n. lia. }
    destruct (fetch_loop n e st en None 1 w0) as [r w'] eqn:En.
    exists n, r, w'. split; [exact Hn|].
    intros fuel Hf. rewrite (fetch_loop_enough_fuel n fuel); auto.
    now rewrite En.
  - exists 1%nat. eexists; eexists. split; [|intros fuel Hf].
    2:{ destruct fuel as [|fuel]; [lia|]. apply E. }
    discriminate.
Qed.

Lemma fetch_loop_objects (fuel : nat) :
  forall (e st en : string) (te : option Z) (page : Z) (w : fetcher),
    forallb is_dict (collected w) = true ->
    forallb is_dict (collected (snd (fetch_loop fuel e st en te page w))) = true
    /\ forall l, fst (fetch_loop fuel e st en te page w) = Ok (Some l) ->
                 l = collected (snd (fetch_loop fuel e st en te page w)).
Proof.
  induction fuel as [|fuel IH]; intros e st en te page w Hc.
  - cbn. split; [exact Hc|discriminate].
  - destruct (fetch_loop_turn e st en te page w)
      as [(l & t' & Hsh)|(x & l' & Hl' & E)].
    + rewrite (fetch_loop_step fuel _ _ _ _ _ _ _ _ Hsh). cbn zeta.
      assert (Hcl : forallb is_dict (collected w ++ l) = true).
      { rewrite forallb_app, Hc. destruct Hsh as [Hi _].
        unfold page_items in Hi.
        destruct (page_payload _); [|discriminate].
        destruct (dict_get "itens" d) as [[| | | |l1|]|]; try discriminate.
        destruct (forallb is_dict l1) eqn:Hd; [|discriminate].
        now injection Hi as <-. }
      destruct (_ || _).
      * cbn. split; [exact Hcl|]. now intros l1 [= <-].
      * apply IH. exact Hcl.
    + rewrite E. cbn. split; [|discriminate].
      now rewrite forallb_app, Hc, Hl'.
Qed.

Lemma fetch_all_objects (fuel : nat) (e st en : string)
    (w w' : fetcher) (l : list json) :
  fetch_all fuel e st en w = (Ok (Some l), w') ->
  forallb is_dict l = true /\ collected w' = l.
Proof.
  unfold fetch_all. intros H.
  destruct (fetch_loop_objects fuel e st en None 1
              (mk_fetcher (server w) (sent w) []) eq_refl) as [Hd Hl].
  rewrite H in Hd, Hl. cbn [fst snd] in Hd, Hl.
  rewrite <- (Hl l eq_refl) in Hd. split; [exact Hd|].
  symmetry. now apply Hl.
Qed.

(** X2.  Every record [fetch_all] returns is a JSON object, and the
    list returned is the accumulator as the loop left it. *)
Theorem fetch_all_returns_objects (fuel : nat) (e st en : string)
    (w w' : fetcher) (l : list json) :
  fetch_all fuel e st en w = (Ok (Some l), w') ->
  forallb is_dict l = true /\ collected w' = l.
Proof.
  unfold fetch_all. intros H.
  destruct (fetch_loop_objects fuel e st en None 1
              (mk_fetcher (server w) (sent w) []) eq_refl) as [Hd Hl].
  rewrite H in Hd, Hl. cbn [fst snd] in Hd, Hl.
  rewrite <- (Hl l eq_refl) in Hd. split; [exact Hd|].
  symmetry. now apply Hl.
Qed.

Lemma fetch_loop_requests (fuel : nat) :
  forall (e st en : string) (te : option Z) (page : Z) (w : fetcher),
    exists n,
      (n <= fuel)%nat
      /\ sent (snd (fetch_loop fuel e st en te page w))
         = sent w ++ page_requests e st en page n
      /\ server (snd (fetch_loop fuel e st en te page w)) = server w.
Proof.
  induction fuel as [|fuel IH]; intros e st en te page w.
  - exists 0%nat. cbn. now rewrite app_nil_r.
  - destruct (fetch_loop_turn e st en te page w)
      as [(l & t' & Hsh)|(x & l' & Hl' & E)].
    + rewrite (fetch_loop_step fuel _ _ _ _ _ _ _ _ Hsh). cbn zeta.
      destruct (_ || _).
      * exists 1%nat. cbn [snd sent server]. split; [lia|].
        split; [|reflexivity]. unfold page_requests. cbn [seq map].
        now rewrite Z.add_0_r.
      * destruct (IH e st en
                    (Some match te with None => t' | Some x => x end)
                    (page + 1)
                    (mk_fetcher (server w)
                       (sent w ++ [mk_get e page PAGE_SIZE st en 60])
                       (collected w ++ l)))
          as (n & Hn & Hs & Hv).
        exists (S n). split; [lia|]. rewrite Hs, Hv. cbn [sent server].
        split; [|reflexivity].
        now rewrite page_requests_shift, <- app_assoc.
    + rewrite E. exists 1%nat. cbn [snd sent server]. split; [lia|].
      split; [|reflexivity]. unfold page_requests. cbn [seq map].
      now rewrite Z.add_0_r.
Qed.

(** X3.  Whatever the server answers and however the run ends, the
    requests [fetch_all] has sent are those for pages 1, 2, ..., n in
    this order, each with page size 100 and the caller's endpoint and
    dates, for some [n] that the fuel bounds. *)
Theorem fetch_all_requests_in_order (fuel : nat) (e st en : string)
    (w : fetcher) :
  exists n,
    (n <= fuel)%nat
    /\ sent (snd (fetch_all fuel e st en w))
       = sent w
         ++ map (fun j => mk_get e (1 + Z.of_nat j) 100 st en 60) (seq 0 n).
Proof.
  unfold fetch_all.
  destruct (fetch_loop_requests fuel e st en None 1
              (mk_fetcher (server w) (sent w) []))
    as (n & Hn & Hs & _).
  exists n. split; [exact Hn|]. exact Hs.
Qed.


(** After [n] well-shaped pages that do not stop it, the loop stands at
    page [n + 1] with their items accumulated. *)
Lemma fetch_all_reach (e st en : string) (w : fetcher) (n fuel : nat) :
  (forall j, (j < n)%nat -> well_shaped (upcoming w j)) ->
  (forall j, (j < n)%nat ->
     stops_at [] (first_total (upcoming w)) (upcoming w) j = false) ->
  exists te,
    fetch_all (n + fuel) e st en w
    = fetch_loop fuel e st en te (1 + Z.of_nat n)
        (mk_fetcher (server w)
           (sent w ++ page_requests e st en 1 n)
           (pages_items (upcoming w) n)).
Proof.
  intros Hw Hc. unfold fetch_all.
  set (w0 := mk_fetcher (server w) (sent w) []).
  destruct n as [|n].
  - exists None. cbn. now rewrite app_nil_r.
  - exists (Some (first_total (upcoming w))).
    destruct (Hw 0%nat ltac:(lia)) as (l0 & t0 & Hsh0).
    assert (Ht0 : first_total (upcoming w) = t0).
    { unfold first_total. destruct Hsh0 as [_ H]. now rewrite H. }
    rewrite Ht0 in *.
    rewrite (fetch_loop_first _ e st en 1 w0 l0 t0).
    2:{ unfold w0. cbn [server sent]. unfold upcoming in Hsh0.
        now rewrite Nat.add_0_r in Hsh0. }
    now rewrite (fetch_loop_prefix (S n) _ e st en t0 1 w0 (upcoming w)).
Qed.



Lemma py_int_no_api_error (tv : json) (x : exn) (msg : string) :
  py_int tv = Raise x -> x <> ApiError msg.
Proof.
  destruct tv as [| b | z | s | l | d]; simpl; try discriminate;
    try (intros [= <-]; discriminate).
  destruct (int_of_str s); [discriminate|]. intros [= <-]. discriminate.
Qed.

(** X5.  A page whose [itens] is a list and whose [itens_totais] is
    there but is nothing [int] takes (null, a list, text that is no
    number): [fetch_all] ends in the exception that [int] raises, which
    is no [ApiError], and none of the items of that page is
    accumulated. *)
Theorem fetch_all_total_not_integer (e st en : string) (w : fetcher)
    (n fuel : nat) (r : http_response) (p : dict) (l : list json)
    (tv : json) (x : exn) :
  (forall j, (j < n)%nat -> well_shaped (upcoming w j)) ->
  (forall j, (j < n)%nat ->
     stops_at [] (first_total (upcoming w)) (upcoming w) j = false) ->
  (n < fuel)%nat ->
  upcoming w n = Answer r ->
  raise_for_status r = Ok tt ->
  json_body r = Some (JDict p) ->
  dict_get "itens" p = Some (JList l) ->
  dict_get "itens_totais" p = Some tv ->
  py_int tv = Raise x ->
  fetch_all fuel e st en w
  = (Raise x,
     mk_fetcher (server w)
       (sent w ++ page_requests e st en 1 (S n))
       (pages_items (upcoming w) n))
  /\ (forall msg, x <> ApiError msg).
Proof.
  intros Hw Hc Hf Hs Hr Hj Hit Htv Hpi.
  split; [|intros msg; eapply py_int_no_api_error; eauto].
  destruct (fetch_all_reach e st en w n (S (fuel - S n)) Hw Hc) as [te E].
  replace (n + S (fuel - S n))%nat with fuel in E by lia.
  rewrite E. cbn [fetch_loop]. unfold bind at 1. unfold session_get.
  cbn [server sent collected]. unfold page_requests at 1.
  rewrite length_app, length_map, length_seq. fold (upcoming w n).
  rewrite Hs. unfold bind at 1. unfold lift at 1. rewrite Hr.
  unfold bind at 1. unfold lift at 1. unfold response_json. rewrite Hj.
  unfold dict_mem. rewrite Hit, Htv. cbn [negb].
  unfold bind at 1. unfold lift at 1. unfold py_index. rewrite Hit, Htv.
  unfold bind at 1. unfold lift at 1.
  unfold bind at 1. unfold lift at 1. rewrite Hpi.
  rewrite <- app_assoc. do 3 f_equal.
  unfold page_requests. now rewrite (seq_S n), map_app.
Qed.

Lemma stops_at_ext (c : list json) (t : Z) (s1 s2 : nat -> net_answer) :
  (forall n, page_items (s1 n) = page_items (s2 n)) ->
  forall j, stops_at c t s1 j = stops_at c t s2 j.
Proof.
  intros H j. unfold stops_at, pages_items, items_at.
  rewrite (flat_map_ext _ (fun j0 => match page_items (s2 j0) with
                                     | Some l => l
                                     | None => []
                                     end)).
  - now rewrite H.
  - intros a. now rewrite H.
Qed.

(** X6.  Only the first page's total counts: two streams of
    well-shaped answers that bring the same items page by page and
    declare the same total on the first page make [fetch_all] return the
    same records, whatever totals the later pages declare. *)
Theorem fetch_all_ignores_later_totals (e st en : string) (w1 w2 : fetcher) :
  (forall n, well_shaped (upcoming w1 n)) ->
  (forall n, well_shaped (upcoming w2 n)) ->
  (forall n, page_items (upcoming w1 n) = page_items (upcoming w2 n)) ->
  page_total (upcoming w1 0) = page_total (upcoming w2 0) ->
  exists k l,
    forall fuel, (k < fuel)%nat ->
      fst (fetch_all fuel e st en w1) = Ok (Some l)
      /\ fst (fetch_all fuel e st en w2) = Ok (Some l).
Proof.
  intros H1 H2 Hi Ht.
  assert (Hft : first_total (upcoming w1) = first_total (upcoming w2)).
  { unfold first_total. now rewrite Ht. }
  destruct (stop_exists [] (first_total (upcoming w1)) (upcoming w1))
    as (k & Hk & Hlt).
  exists k, (pages_items (upcoming w1) (S k)). intros fuel Hf. split.
  - rewrite (fetch_all_run e st en w1 k fuel); auto.
  - rewrite (fetch_all_run e st en w2 k fuel); auto.
    + cbn [fst]. do 2 f_equal. unfold pages_items, items_at.
      apply flat_map_ext. intros a. now rewrite Hi.
    + rewrite <- Hft. now rewrite <- (stops_at_ext _ _ _ _ Hi).
    + intros j Hj. rewrite <- Hft, <- (stops_at_ext _ _ _ _ Hi). now apply Hlt.
Qed.


(** ** Further properties of the spreadsheet sink *)

Lemma first_seen_In (l : list string) (k : string) :
  In k (first_seen l) <-> In k l.
Proof.
  induction l as [|x l IH]; simpl; [tauto|].
  rewrite filter_In, IH. split.
  - intros [H|[H _]]; auto.
  - intros [H|H]; auto.
    destruct (String.eqb_spec k x) as [->|Hn]; auto.
Qed.

Lemma first_seen_NoDup (l : list string) : NoDup (first_seen l).
Proof.
  induction l as [|x l IH]; simpl; constructor.
  - rewrite filter_In. intros [_ H]. now rewrite String.eqb_refl in H.
  - now apply NoDup_filter.
Qed.

(** X7.  The header [records_to_rows] computes names every key that
    occurs in some record, names nothing else, and names no key twice. *)
Theorem header_distinct_and_complete (records : list dict) :
  NoDup (collect_columns records)
  /\ forall k,
       In k (collect_columns records)
       <-> exists record, In record records /\ In k (keys record).
Proof.
  rewrite collect_columns_union. unfold key_union. split.
  - apply first_seen_NoDup.
  - intros k. rewrite first_seen_In, in_flat_map. tauto.
Qed.

(** X8.  The rows [records_to_rows] returns form a rectangle: one
    header row and one row per record, every row as long as the header,
    whether the header is the key union or the placeholder. *)
Theorem rows_rectangular (records : list dict) :
  length (records_to_rows records) = S (length records)
  /\ forall row,
       In row (records_to_rows records) ->
       length row = length (hd [] (records_to_rows records)).
Proof.
  unfold records_to_rows.
  destruct (collect_columns records) as [|c cs]; cbn [length hd].
  - rewrite length_map. split; [reflexivity|].
    intros row [<-|H]; [reflexivity|].
    apply in_map_iff in H as (r & <- & _). reflexivity.
  - rewrite length_map. split; [reflexivity|].
    intros row [<-|H]; [reflexivity|].
    apply in_map_iff in H as (r & <- & _). now rewrite !length_map.
Qed.

Lemma normalise_value_scalar (v : json) : is_scalar (normalise_value v) = true.
Proof. destruct v; reflexivity. Qed.

(** X9.  Every cell [records_to_rows] produces is text, a number or a
    boolean: no null and no nested object or list reaches the sheet. *)
Theorem cells_are_scalars (records : list dict) (row : list json) (c : json) :
  In row (records_to_rows records) -> In c row -> is_scalar c = true.
Proof.
  unfold records_to_rows.
  destruct (collect_columns records) as [|k ks].
  - intros [<-|H] Hc.
    + destruct Hc as [<-|[]]. reflexivity.
    + apply in_map_iff in H as (r & <- & _). destruct Hc as [<-|[]].
      reflexivity.
  - intros [<-|H] Hc.
    + apply in_map_iff in Hc as (x & <- & _). reflexivity.
    + apply in_map_iff in H as (r & <- & _).
      apply in_map_iff in Hc as (col & <- & _).
      apply normalise_value_scalar.
Qed.

Lemma key_union_keyless (records : list dict) :
  Forall (fun record => record = []) records -> key_union records = [].
Proof.
  intros H. unfold key_union.
  replace (flat_map keys records) with (@nil string); [reflexivity|].
  induction H as [|r rs -> _ IH]; simpl; [reflexivity|exact IH].
Qed.

(** X10.  When no record has any key the sheet gets the single column
    [raw_json] and, per record, one cell holding the record's JSON
    text. *)
Theorem rows_of_keyless_records (records : list dict) :
  Forall (fun record => record = []) records ->
  records_to_rows records
  = [JStr "raw_json"]
      :: map (fun record => [JStr (json_dumps (JDict record))]) records.
Proof.
  intros H. unfold records_to_rows.
  now rewrite collect_columns_union, key_union_keyless.
Qed.

(** The store of tabs. *)
Lemma tab_get_update_same (name : string) (f : worksheet -> worksheet)
    (sp : spreadsheet) :
  tab_get name (tab_update name f sp) = option_map f (tab_get name sp).
Proof.
  induction sp as [|[title ws] sp IH]; simpl; [reflexivity|].
  destruct (String.eqb_spec title name) as [->|Hn]; simpl.
  - now rewrite String.eqb_refl.
  - destruct (String.eqb_spec title name); [contradiction|exact IH].
Qed.

Lemma tab_get_update_other (name other : string)
    (f : worksheet -> worksheet) (sp : spreadsheet) :
  other <> name ->
  tab_get other (tab_update name f sp) = tab_get other sp.
Proof.
  intros Hn. induction sp as [|[title ws] sp IH]; simpl; [reflexivity|].
  destruct (String.eqb_spec title name) as [->|Ht]; simpl.
  - destruct (String.eqb_spec name other); [congruence|reflexivity].
  - destruct (String.eqb_spec title other); [reflexivity|exact IH].
Qed.

Lemma tab_get_add (name other : string) (sp : spreadsheet) :
  tab_get other (add_worksheet name sp)
  = match tab_get other sp with
    | Some ws => Some ws
    | None => if (name =? other)%string then Some [] else None
    end.
Proof.
  unfold add_worksheet.
  induction sp as [|[title ws] sp IH]; simpl; [reflexivity|].
  destruct (title =? other)%string; [reflexivity|exact IH].
Qed.

(** After [ensure_worksheet] the tab is there and empty, and the other
    tabs are as they were. *)
Lemma ensure_worksheet_spec (name : string) (sp : spreadsheet) :
  exists sp',
    ensure_worksheet name sp = (Ok name, sp')
    /\ tab_get name sp' = Some []
    /\ forall other, other <> name -> tab_get other sp' = tab_get other sp.
Proof.
  unfold ensure_worksheet. eexists. split; [reflexivity|]. split.
  - rewrite tab_get_update_same.
    destruct (tab_get name sp) eqn:E; [now rewrite E|].
    rewrite tab_get_add, E. now rewrite String.eqb_refl.
  - intros other Hn. rewrite tab_get_update_other by assumption.
    destruct (tab_get name sp); [reflexivity|].
    rewrite tab_get_add.
    destruct (tab_get other sp); [reflexivity|].
    destruct (String.eqb_spec name other); [congruence|reflexivity].
Qed.


(** ** Properties of the sync run *)

(** X11.  Without a token, a spreadsheet id or a service-account file
    the run ends at once in [SystemExit]: no request is sent and no tab
    is touched. *)
Theorem sync_main_needs_configuration (fuel : nat) (args : arguments)
    (w : sync_world) :
  missing (arg_token args) = true
  \/ missing (arg_spreadsheet_id args) = true
  \/ missing (arg_service_account_file args) = true ->
  exists msg, sync_main fuel args w = (Raise (SystemExit msg), w).
Proof.
  intros H. unfold sync_main, raise.
  destruct (missing (arg_token args)); [eexists; reflexivity|].
  destruct (missing (arg_spreadsheet_id args)); [eexists; reflexivity|].
  destruct (missing (arg_service_account_file args)); [eexists; reflexivity|].
  destruct H as [H|[H|H]]; discriminate.
Qed.

(** The two [ensure_worksheet] calls at the start of a run. *)
Lemma ensure_both (cr cp : string) (sp : spreadsheet) :
  exists sp1 sp2,
    ensure_worksheet cr sp = (Ok cr, sp1)
    /\ ensure_worksheet cp sp1 = (Ok cp, sp2)
    /\ tab_get cr sp2 = Some []
    /\ tab_get cp sp2 = Some []
    /\ forall other, other <> cr -> other <> cp ->
                     tab_get other sp2 = tab_get other sp.
Proof.
  destruct (ensure_worksheet_spec cr sp) as (sp1 & E1 & G1 & O1).
  destruct (ensure_worksheet_spec cp sp1) as (sp2 & E2 & G2 & O2).
  exists sp1, sp2. repeat split; auto.
  - destruct (string_dec cr cp) as [->|Hn]; [exact G2|].
    now rewrite O2.
  - intros other H1 H2. now rewrite O2, O1.
Qed.

(** X12.  The tabs are cleared before anything is fetched: when the
    fetch of the receivables fails, or the fetch of the payables after
    it, the run ends in that exception with both tabs there and empty,
    whatever they held, the other tabs being untouched. *)
Theorem sync_main_fetch_failure (fuel : nat) (args : arguments)
    (w : sync_world) (x : exn) (net' : fetcher) :
  missing (arg_token args) = false ->
  missing (arg_spreadsheet_id args) = false ->
  missing (arg_service_account_file args) = false ->
  fetch_all fuel CR_ENDPOINT (arg_start args) (arg_end args) (sync_net w)
  = (Raise x, net')
  \/ (exists l net1,
        fetch_all fuel CR_ENDPOINT (arg_start args) (arg_end args) (sync_net w)
        = (Ok (Some l), net1)
        /\ fetch_all fuel CP_ENDPOINT (arg_start args) (arg_end args) net1
           = (Raise x, net')) ->
  exists sheets',
    sync_main fuel args w = (Raise x, mk_sync net' sheets')
    /\ tab_get (arg_worksheet_cr args) sheets' = Some []
    /\ tab_get (arg_worksheet_cp args) sheets' = Some []
    /\ forall other,
         other <> arg_worksheet_cr args ->
         other <> arg_worksheet_cp args ->
         tab_get other sheets' = tab_get other (sync_sheets w).
Proof.
  intros Ht Hi Hf H.
  destruct (ensure_both (arg_worksheet_cr args) (arg_worksheet_cp args)
              (sync_sheets w)) as (sp1 & sp2 & E1 & E2 & G1 & G2 & O).
  exists sp2. split; [|auto].
  unfold sync_main. rewrite Ht, Hi, Hf.
  unfold bind at 1. unfold on_sheets at 1. rewrite E1.
  unfold bind at 1. unfold on_sheets at 1. cbn [sync_sheets sync_net].
  rewrite E2.
  unfold bind at 1. unfold on_net at 1. cbn [sync_sheets sync_net].
  destruct H as [H|(l & net1 & H1 & H2)].
  - now rewrite H.
  - rewrite H1. unfold bind at 1. unfold on_net at 1.
    cbn [sync_sheets sync_net]. now rewrite H2.
Qed.

Lemma as_records_objects (l : list json) :
  forallb is_dict l = true ->
  exists rs, as_records l = Ok rs /\ map JDict rs = l.
Proof.
  induction l as [|v l IH]; simpl; intros H.
  - now exists [].
  - apply andb_true_iff in H as [Hv Hl].
    destruct v; try discriminate.
    destruct (IH Hl) as (rs & -> & <-). now exists (d :: rs).
Qed.

Lemma write_tab_content (handle : string) (l : list json) (rs : list dict)
    (sp : spreadsheet) :
  as_records l = Ok rs ->
  tab_get handle sp = Some [] ->
  exists sp',
    write_tab handle l sp = (Ok tt, sp')
    /\ tab_get handle sp' = Some (tab_content rs)
    /\ forall other, other <> handle -> tab_get other sp' = tab_get other sp.
Proof.
  intros Hr Hg. destruct l as [|v l].
  - injection Hr as <-. exists sp. repeat split; auto.
  - unfold write_tab. rewrite Hr. eexists. split; [reflexivity|]. split.
    + rewrite tab_get_update_same, Hg. cbn [option_map]. f_equal.
      destruct rs as [|r rs].
      * cbn in Hr. destruct v; try discriminate.
        destruct (as_records l); discriminate.
      * unfold write_to_sheet, tab_content. apply update_A1_cleared.
    + intros other Hn. now apply tab_get_update_other.
Qed.

(** X13.  A run whose two fetches succeed, the two tabs having
    different names: the tab of the receivables ends up holding exactly
    the rows of the receivables fetched, the tab of the payables those of
    the payables (an empty tab for no record), whatever the tabs held
    before; the other tabs are untouched. *)
Theorem sync_main_writes_both_tabs (fuel : nat) (args : arguments)
    (w : sync_world) (lr lp : list json) (net1 net2 : fetcher) :
  missing (arg_token args) = false ->
  missing (arg_spreadsheet_id args) = false ->
  missing (arg_service_account_file args) = false ->
  arg_worksheet_cr args <> arg_worksheet_cp args ->
  fetch_all fuel CR_ENDPOINT (arg_start args) (arg_end args) (sync_net w)
  = (Ok (Some lr), net1) ->
  fetch_all fuel CP_ENDPOINT (arg_start args) (arg_end args) net1
  = (Ok (Some lp), net2) ->
  exists rr rp sheets',
    map JDict rr = lr
    /\ map JDict rp = lp
    /\ sync_main fuel args w = (Ok (Some tt), mk_sync net2 sheets')
    /\ tab_get (arg_worksheet_cr args) sheets' = Some (tab_content rr)
    /\ tab_get (arg_worksheet_cp args) sheets' = Some (tab_content rp)
    /\ forall other,
         other <> arg_worksheet_cr args ->
         other <> arg_worksheet_cp args ->
         tab_get other sheets' = tab_get other (sync_sheets w).
Proof.
  intros Ht Hi Hf Hne H1 H2.
  destruct (fetch_all_objects _ _ _ _ _ _ _ H1) as [D1 _].
  destruct (fetch_all_objects _ _ _ _ _ _ _ H2) as [D2 _].
  destruct (as_records_objects lr D1) as (rr & R1 & M1).
  destruct (as_records_objects lp D2) as (rp & R2 & M2).
  destruct (ensure_both (arg_worksheet_cr args) (arg_worksheet_cp args)
              (sync_sheets w)) as (sp1 & sp2 & E1 & E2 & G1 & G2 & O).
  destruct (write_tab_content (arg_worksheet_cr args) lr rr sp2 R1 G1)
    as (sp3 & W1 & G3 & O3).
  assert (G2' : tab_get (arg_worksheet_cp args) sp3 = Some []).
  { rewrite O3; auto. }
  destruct (write_tab_content (arg_worksheet_cp args) lp rp sp3 R2 G2')
    as (sp4 & W2 & G4 & O4).
  exists rr, rp, sp4. repeat split; auto.
  - unfold sync_main. rewrite Ht, Hi, Hf.
    unfold bind at 1. unfold on_sheets at 1. rewrite E1.
    unfold bind at 1. unfold on_sheets at 1. cbn [sync_sheets sync_net].
    rewrite E2.
    unfold bind at 1. unfold on_net at 1. cbn [sync_sheets sync_net].
    rewrite H1.
    unfold bind at 1. unfold on_net at 1. cbn [sync_sheets sync_net].
    rewrite H2.
    unfold bind at 1. unfold on_sheets at 1. cbn [sync_sheets sync_net].
    rewrite W1.
    unfold bind at 1. unfold on_sheets at 1. cbn [sync_sheets sync_net].
    rewrite W2. reflexivity.
  - rewrite O4; auto.
  - intros other Ho1 Ho2. rewrite O4, O3; auto.
Qed.


(** ** Further properties of the token manager *)

Lemma from_auth_code_no_code (auth : OAuthHandler) (w : world) :
  missing (auth_code w) = true ->
  from_auth_code auth w = (Raise (ask_for_code auth), w).
Proof.
  intros H. unfold from_auth_code, ask_for_code.
  unfold bind at 1. unfold environ_get.
  destruct (auth_code w) as [c|]; [|reflexivity].
  simpl in H. cbn [truthy]. now rewrite H.
Qed.

Lemma get_access_token_nothing_stored (auth : OAuthHandler) (w : world) :
  match token_file w with
  | Some j => truthy j = false
  | None => True
  end ->
  get_access_token auth w = from_auth_code auth w.
Proof.
  intros H. unfold get_access_token, from_auth_code.
  cbv [bind lift ret load_tokens].
  destruct (token_file w) as [j|]; cbv beta iota.
  - now rewrite H.
  - reflexivity.
Qed.

(** X14.  Nothing usable stored (no token file, or a file holding null
    or an empty object) and no authorization code in the environment:
    [get_access_token] ends in [SystemExit] with the authorization URL in
    its message, and nothing at all has happened: no POST, no write, no
    reading of the clock. *)
Theorem get_access_token_asks_for_code (auth : OAuthHandler) (w : world) :
  match token_file w with
  | Some j => truthy j = false
  | None => True
  end ->
  missing (auth_code w) = true ->
  get_access_token auth w
  = (Raise (SystemExit
              ("Defina CONTA_AZUL_AUTH_CODE com o codigo obtido em: "
               ++ authorization_url auth "state")%string), w).
Proof.
  intros Hf Hc. rewrite get_access_token_nothing_stored by assumption.
  now apply from_auth_code_no_code.
Qed.

Lemma renew_no_refresh_token (auth : OAuthHandler) (w : world) (d : dict) :
  match dict_get "refresh_token" d with
  | Some rt => truthy rt = false
  | None => True
  end ->
  renew auth (JDict d) w = from_auth_code auth w.
Proof.
  intros H. unfold renew. unfold bind at 1. unfold lift at 1. cbn [py_get].
  destruct (dict_get "refresh_token" d) as [rt|]; [now rewrite H|reflexivity].
Qed.

(** X15.  A stored token that has expired, with no refresh token (or
    an empty or null one) and no authorization code in the environment:
    [get_access_token] ends in [SystemExit] with the authorization URL;
    the clock was read once, no POST was sent and the token file still
    holds the expired record. *)
Theorem get_access_token_expired_no_refresh (auth : OAuthHandler) (w : world)
    (d : dict) (ev : json) (e : Z) :
  token_file w = Some (JDict d) ->
  dict_get "expires_at" d = Some ev ->
  py_num ev = Ok e ->
  e <= clock w (reads w) ->
  match dict_get "refresh_token" d with
  | Some rt => truthy rt = false
  | None => True
  end ->
  missing (auth_code w) = true ->
  get_access_token auth w
  = (Raise (SystemExit
              ("Defina CONTA_AZUL_AUTH_CODE com o codigo obtido em: "
               ++ authorization_url auth "state")%string), tick w)
  /\ token_file (tick w) = Some (JDict d)
  /\ posts (tick w) = posts w
  /\ trace (tick w) = trace w.
Proof.
  intros Hf Hev He Hle Hrt Hc. repeat split; [|exact Hf].
  rewrite (get_access_token_stale auth w d e); auto.
  - rewrite renew_no_refresh_token by assumption.
    now apply from_auth_code_no_code.
  - eapply dict_get_nonempty; eauto.
  - now rewrite Hev.
Qed.



Lemma quiet_refl (w : world) : quiet w w.
Proof. now unfold quiet. Qed.

Lemma one_post_request (auth : OAuthHandler) (data : list (string * json))
    (w0 w : world) :
  quiet w0 w ->
  one_post w0 (snd (token_request auth data w)).
Proof.
  intros (Ht & Hp & Hf).
  destruct (token_request_trace auth data w)
    as (res & w' & tl & E & Hp' & Ht' & Hfile).
  rewrite E. cbn [snd]. exists (mk_post TOKEN_URL data (token_headers auth) 30), tl.
  rewrite Ht', Hp', Ht, Hp. repeat split.
  destruct Hfile as [[-> Hfl]|(t & -> & Hfl)].
  - left. split; [reflexivity|]. now rewrite Hfl.
  - right. now exists t.
Qed.

Lemma from_auth_code_effects (auth : OAuthHandler) (w0 w : world)
    (res : result json) (w' : world) :
  quiet w0 w ->
  from_auth_code auth w = (res, w') ->
  quiet w0 w' \/ one_post w0 w'.
Proof.
  intros Hq. unfold from_auth_code. unfold bind at 1. unfold environ_get.
  destruct (negb (truthy _)).
  { unfold raise. intros [= _ <-]. now left. }
  unfold bind at 1. rewrite exchange_code_request.
  pose proof (one_post_request auth
                (post_data (exchange_request auth
                   match auth_code w with
                   | Some c => JStr c
                   | None => JNull
                   end)) w0 w Hq) as H.
  destruct (token_request auth _ w) as [[tokens|x] w1]; cbn [snd] in *.
  - unfold bind, environ_pop, lift. intros [= _ <-]. right.
    destruct H as (q & tl & H1 & H2 & H3). exists q, tl. now cbn.
  - intros [= _ <-]. now right.
Qed.

Lemma renew_effects (auth : OAuthHandler) (tokens : json) (w0 w : world)
    (res : result json) (w' : world) :
  quiet w0 w ->
  renew auth tokens w = (res, w') ->
  quiet w0 w' \/ one_post w0 w'.
Proof.
  intros Hq. unfold renew. unfold bind at 1. unfold lift at 1.
  destruct (py_get tokens "refresh_token" JNull) as [rt|x].
  2:{ intros [= _ <-]. now left. }
  destruct (truthy rt); [|now apply from_auth_code_effects].
  unfold bind at 1. unfold lift at 1.
  destruct (py_index tokens "refresh_token") as [rt'|x].
  2:{ intros [= _ <-]. now left. }
  unfold bind at 1. rewrite refresh_request_eq.
  pose proof (one_post_request auth
                (post_data (refresh_request auth rt')) w0 w Hq) as H.
  destruct (token_request auth _ w) as [[tokens'|x] w1]; cbn [snd] in *.
  - unfold lift. intros [= _ <-]. now right.
  - intros [= _ <-]. now right.
Qed.

Lemma get_access_token_effects (auth : OAuthHandler) (w : world)
    (res : result json) (w' : world) :
  get_access_token auth w = (res, w') ->
  quiet w w' \/ one_post w w'.
Proof.
  destruct (truthy match token_file w with Some j => j | None => JNull end)
    eqn:Ht.
  2:{ rewrite get_access_token_nothing_stored.
      - apply from_auth_code_effects, quiet_refl.
      - destruct (token_file w); [exact Ht|exact I]. }
  destruct (token_file w) as [tokens|] eqn:Hf; [|discriminate].
  assert (Hq : quiet w (tick w)) by (unfold quiet; auto).
  destruct tokens as [| b | z | s | l | d];
    try (unfold get_access_token; cbv [bind lift ret load_tokens];
         rewrite Hf; cbv beta iota; rewrite Ht; cbn;
         intros [= _ <-]; left; apply quiet_refl).
  destruct (py_gt match dict_get "expires_at" d with
                  | Some x => x
                  | None => JNum 0
                  end (clock w (reads w))) as [[|]|x] eqn:Hgt.
  - unfold get_access_token.
    cbv [bind lift ret load_tokens time_time]. rewrite Hf. cbv beta iota.
    rewrite Ht. cbn [py_get]. rewrite Hgt.
    destruct (py_index (JDict d) "access_token"); intros [= _ <-];
      left; exact Hq.
  - unfold py_gt in Hgt.
    destruct (py_num _) as [e|] eqn:Hn; [|discriminate].
    injection Hgt as Hgt. rewrite Z.gtb_ltb in Hgt. apply Z.ltb_ge in Hgt.
    rewrite (get_access_token_stale auth w d e); auto.
    + now apply renew_effects.
    + destruct (dict_get "expires_at" d); exact Hn.
  - unfold get_access_token.
    cbv [bind lift ret load_tokens time_time]. rewrite Hf. cbv beta iota.
    rewrite Ht. cbn [py_get]. rewrite Hgt. intros [= _ <-]. left. exact Hq.
Qed.

(** X17.  Whatever is stored, whatever the environment holds and
    whatever the endpoint answers, one call of [get_access_token] either
    reaches nothing outside (no POST, token file untouched) or sends
    exactly one POST; the token file is written at most once, and only
    after that POST. *)
Theorem get_access_token_at_most_one_post (auth : OAuthHandler) (w : world) :
  quiet w (snd (get_access_token auth w))
  \/ one_post w (snd (get_access_token auth w)).
Proof.
  destruct (get_access_token auth w) as [res w'] eqn:E. cbn [snd].
  eapply get_access_token_effects; eauto.
Qed.


(** X19.  An answer of the token endpoint that passes the status check
    but is not a JSON object, or whose [expires_in] is not a number,
    makes [exchange_code] and [refresh] fail ([AttributeError], resp.
    [TypeError]) after the POST and one reading of the clock; nothing is
    written to the token file. *)
Theorem token_answer_unusable (auth : OAuthHandler) (w : world)
    (r : http_response) (payload code rt : json) :
  token_server w (posts w) = Answer r ->
  raise_for_status r = Ok tt ->
  json_body r = Some payload ->
  forall x,
    match payload with
    | JDict sd =>
        exists v, dict_get "expires_in" sd = Some v
                  /\ py_num v = Raise x
    | _ => x = AttributeError
    end ->
    exchange_code auth code w
    = (Raise x, tick (posted (exchange_request auth code) w))
    /\ refresh auth rt w
       = (Raise x, tick (posted (refresh_request auth rt) w))
    /\ forall q, token_file (tick (posted q w)) = token_file w.
Proof.
  intros Hs Hr Hj x Hx.
  assert (H : forall data,
             token_request auth data w
             = (Raise x,
                tick (posted (mk_post TOKEN_URL data (token_headers auth) 30)
                        w))).
  { intros data. unfold token_request.
    unfold bind at 1. unfold requests_post. rewrite Hs.
    unfold bind at 1. unfold lift at 1. rewrite Hr.
    unfold bind at 1. unfold lift at 1. unfold response_json. rewrite Hj.
    unfold bind at 1. unfold time_time at 1. cbn [clock reads].
    unfold bind at 1. unfold lift at 1.
    destruct payload as [| b | z | s | l | sd];
      try (subst x; reflexivity).
    destruct Hx as (v & Hv & Hn). cbn [py_get]. rewrite Hv.
    unfold bind at 1. unfold lift at 1. rewrite Hn. reflexivity. }
  repeat split.
  - rewrite exchange_code_request. apply H.
  - rewrite refresh_request_eq. apply H.
Qed.




(** ** Further properties of the table sink *)



Lemma named_value_map (c : string) (tc : list (string * string))
    (h : string * string -> sqlval) :
  (forall col, In col tc -> fst col = c -> h col = h (c, snd col)) ->
  forall ty, In (c, ty) tc ->
    exists ty', In (c, ty') tc
                /\ named_value c (map fst tc) (map h tc) = h (c, ty').
Proof.
  intros _. induction tc as [|[c0 t0] tc IH]; intros ty Hin; [destruct Hin|].
  simpl. destruct (String.eqb_spec c0 c) as [->|Hn].
  - exists t0. split; [now left|reflexivity].
  - destruct Hin as [[= -> _]|Hin]; [contradiction|].
    destruct (IH ty Hin) as (ty' & Hin' & E).
    exists ty'. split; [now right|exact E].
Qed.
















(** X25.  With no table there, a first record without keys makes the
    sink fail with [OperationalError], and a first record that is not an
    object with [AttributeError]; in both cases the database is left as
    it was: no table, no transaction. *)
Theorem insert_records_bad_first_record (db : database) (first : json)
    (rest : list json) :
  current db = None ->
  (first = JDict [] ->
   insert_records (first :: rest) db = (Raise OperationalError, db))
  /\ (is_dict first = false ->
      insert_records (first :: rest) db = (Raise AttributeError, db)).
Proof.
  intros Hc. split.
  - intros ->. cbn [insert_records].
    unfold bind at 1. unfold ensure_table.
    unfold bind at 1. unfold select_table_CR. rewrite Hc.
    unfold bind at 1. unfold lift at 1. cbn [py_keys keys map].
    reflexivity.
  - intros Hd. cbn [insert_records].
    unfold bind at 1. unfold ensure_table.
    unfold bind at 1. unfold select_table_CR. rewrite Hc.
    unfold bind at 1. unfold lift at 1.
    destruct first; try reflexivity. discriminate.
Qed.


End Scripts.

(** ** The theorems at work on sample inputs *)


Lemma fetch_all_terminates_witness :
  let w := mk_fetcher one_by_one [] [] in
  let f : string -> option Z := fun _ => None in
  exists k,
    stops_at [] (first_total f (upcoming w)) (upcoming w) k = true
    /\ (forall j, (j < k)%nat ->
          stops_at [] (first_total f (upcoming w)) (upcoming w) j = false)
    /\ (forall fuel, (k < fuel)%nat ->
          fetch_all f fuel "cr" "2025-01-01" "2025-12-31" w
          = (Ok (Some (pages_items (upcoming w) (S k))),
             mk_fetcher (server w)
               (sent w
                ++ page_requests "cr" "2025-01-01" "2025-12-31" 1 (S k))
               (pages_items (upcoming w) (S k))))
    /\ (items_at (upcoming w) k = [] ->
        pages_items (upcoming w) (S k) = pages_items (upcoming w) k).
Proof.
  intros w f.
  apply (fetch_all_terminates f "cr" "2025-01-01" "2025-12-31" w).
  intros n. exists [sample_item n], 2. split; reflexivity.
Defined.

Lemma fetch_all_malformed_page_witness :
  let payload := JDict [("itens", JList [sample_item 0])] in
  let r := mk_response 200 "" (Some payload) in
  let w := mk_fetcher (fun _ => Answer r) [] [] in
  broken_envelope payload = true
  /\ exists msg w',
       fetch_all (fun _ => None) 1 "cr" "2025-01-01" "2025-12-31" w
       = (Raise (ApiError msg), w')
       /\ sent w' = sent w
                    ++ page_requests "cr" "2025-01-01" "2025-12-31" 1 1
       /\ (broken_envelope payload = true ->
           collected w' = pages_items (upcoming w) 0)
       /\ (0%nat = 0%nat -> broken_envelope payload = true ->
           collected w' = []).
Proof.
  intros payload r w. split; [reflexivity|].
  apply (fetch_all_malformed_page (fun _ => None) "cr" "2025-01-01"
           "2025-12-31" w 0 r payload 1).
  - intros j Hj. lia.
  - intros j Hj. lia.
  - reflexivity.
  - reflexivity.
  - reflexivity.
  - left. reflexivity.
  - lia.
Defined.

(** A page whose only item is a number and whose [itens_totais] is
    null has an item that is not an object, and [fetch_all] ends in
    [TypeError], raised by [int], not in [ApiError]. *)
Lemma fetch_all_bad_item_type_error :
  let payload := JDict [("itens", JList [JNum 1]); ("itens_totais", JNull)] in
  let w := mk_fetcher
             (fun _ => Answer (mk_response 200 "" (Some payload))) [] [] in
  malformed payload = true
  /\ bad_item payload = true
  /\ fst (fetch_all (fun _ => None) 1 "cr" "2025-01-01" "2025-12-31" w)
     = Raise TypeError.
Proof. repeat split. Qed.

Lemma sheet_rows_union_witness :
  let records := [[("a", JStr "1"); ("b", JStr "2")];
                  [("a", JStr "3"); ("c", JStr "4")]] in
  let dumps : json -> string := fun _ => "{}" in
  key_union records <> []
  /\ records_to_rows dumps records
     = map JStr (key_union records)
         :: map (fun record => map (cell dumps record) (key_union records))
                records
  /\ write_to_sheet dumps (clear [[JStr "stale"]]) records
     = map JStr (key_union records)
         :: map (fun record => map (cell dumps record) (key_union records))
                records.
Proof.
  intros records dumps.
  assert (H : key_union records <> []) by discriminate.
  split; [exact H|].
  destruct (sheet_rows_union dumps records [[JStr "stale"]] H)
    as (E1 & E2 & _).
  split; [exact E1|exact E2].
Defined.

(** One record with no key at all: the list is not empty, its key union
    is, and the header written is the placeholder column. *)
Lemma sheet_header_placeholder :
  let records : list dict := [[]] in
  let dumps : json -> string := fun _ => "{}" in
  records <> []
  /\ key_union records = []
  /\ records_to_rows dumps records = [[JStr "raw_json"]; [JStr "{}"]]
  /\ hd [] (records_to_rows dumps records) <> map JStr (key_union records).
Proof. repeat split; discriminate. Qed.

Lemma get_access_token_fast_path_witness :
  let w := sample_world (Some (JDict (sample_tokens 2000))) 1000
             (Answer (sample_answer 200)) in
  get_access_token (fun s => s) (fun s => s) sample_auth w
  = (Ok (JStr "old"), tick w)
  /\ token_file (tick w) = token_file w
  /\ posts (tick w) = posts w
  /\ trace (tick w) = trace w.
Proof.
  intros w.
  apply (get_access_token_fast_path (fun s => s) (fun s => s) sample_auth w
           (sample_tokens 2000) (JNum 2000) 2000 (JStr "old")).
  - reflexivity.
  - reflexivity.
  - reflexivity.
  - simpl. lia.
  - reflexivity.
Defined.


Lemma token_post_http_error_witness :
  let w := sample_world None 1000 (Answer (sample_answer 401)) in
  exchange_code (fun s => s) sample_auth (JStr "code") w
  = (Raise (HTTPError 401 "body"),
     posted (exchange_request (fun s => s) sample_auth (JStr "code")) w)
  /\ refresh (fun s => s) sample_auth (JStr "R1") w
     = (Raise (HTTPError 401 "body"),
        posted (refresh_request (fun s => s) sample_auth (JStr "R1")) w)
  /\ (forall q, token_file (posted q w) = token_file w
                /\ trace (posted q w) = trace w ++ [Posted q]).
Proof.
  intros w.
  apply (token_post_http_error (fun s => s) sample_auth w (sample_answer 401)
           (JStr "code") (JStr "R1")).
  - reflexivity.
  - simpl. lia.
Defined.

(** A 300 answer is not a 2xx one, yet [raise_for_status] lets it
    pass: the token set in its body is stamped and written to the token
    file, and the exchange succeeds. *)
Lemma exchange_code_status_300_writes_file :
  let w := sample_world None 1000 (Answer (sample_answer 300)) in
  let saved := JDict [("access_token", JStr "new"); ("expires_in", JNum 3600);
                      ("expires_at", JNum 4600)] in
  ~ (200 <= status_code (sample_answer 300) < 300)
  /\ fst (exchange_code (fun s => s) sample_auth (JStr "code") w) = Ok saved
  /\ token_file (snd (exchange_code (fun s => s) sample_auth (JStr "code") w))
     = Some saved
  /\ fst (refresh (fun s => s) sample_auth (JStr "R1") w) = Ok saved
  /\ token_file (snd (refresh (fun s => s) sample_auth (JStr "R1") w))
     = Some saved.
Proof. repeat split. simpl. lia. Qed.

Lemma missing_expiry_means_expired_witness :
  let auth := sample_auth in
  let b64 : string -> string := fun s => s in
  let record := [("access_token", JStr "old")] in
  let w := sample_world (Some (JDict record)) 1000
             (Answer (mk_response 200 ""
                        (Some (JDict [("access_token", JStr "new")])))) in
  let saved := JDict [("access_token", JStr "new");
                      ("expires_at", JNum 1000)] in
  let w2 := sample_world (Some saved) 1000 NetFail in
  get_access_token b64 b64 auth w
  = renew b64 b64 auth (JDict record) (tick w)
  /\ exchange_code b64 auth (JStr "code") w
     = (Ok saved, renewed (exchange_request b64 auth (JStr "code")) saved w)
  /\ get_access_token b64 b64 auth w2 = renew b64 b64 auth saved (tick w2).
Proof.
  intros auth b64 record w saved w2.
  destruct (missing_expiry_means_expired b64 b64 auth) as [Ha Hb].
  destruct (Ha w record) as [E _]; try reflexivity.
  { simpl. lia. }
  destruct (Hb w (mk_response 200 ""
                    (Some (JDict [("access_token", JStr "new")])))
              [("access_token", JStr "new")] (JStr "code") (JStr "R1"))
    as (E1 & _ & H2); try reflexivity.
  destruct (H2 w2) as [E2 _]; try reflexivity.
  split; [exact E|]. split; [exact E1|exact E2].
Defined.

(** ** The further properties at work on sample inputs *)

Lemma fetch_all_returns_objects_witness :
  forallb is_dict [sample_item 0; sample_item 1] = true
  /\ collected (snd (fetch_all (fun _ => None) 2 "cr" "2025-01-01"
                       "2025-12-31" (mk_fetcher one_by_one [] [])))
     = [sample_item 0; sample_item 1].
Proof.
  apply (fetch_all_returns_objects (fun _ => None) 2 "cr" "2025-01-01"
           "2025-12-31" (mk_fetcher one_by_one [] [])).
  reflexivity.
Defined.


Lemma fetch_all_total_not_integer_witness :
  let p := [("itens", JList [sample_item 9]); ("itens_totais", JNull)] in
  let w := mk_fetcher
             (then_only (Answer (mk_response 200 "" (Some (JDict p))))) [] [] in
  fetch_all (fun _ => None) 5 "cr" "2025-01-01" "2025-12-31" w
  = (Raise TypeError,
     mk_fetcher (server w)
       (sent w ++ page_requests "cr" "2025-01-01" "2025-12-31" 1 2)
       (pages_items (upcoming w) 1))
  /\ (forall msg, TypeError <> ApiError msg).
Proof.
  intros p w.
  apply (fetch_all_total_not_integer (fun _ => None) "cr" "2025-01-01"
           "2025-12-31" w 1 5 (mk_response 200 "" (Some (JDict p))) p
           [sample_item 9] JNull TypeError).
  - intros j Hj. assert (j = 0%nat) as -> by lia.
    exists [sample_item 0], 5. split; reflexivity.
  - intros j Hj. assert (j = 0%nat) as -> by lia. reflexivity.
  - lia.
  - reflexivity.
  - reflexivity.
  - reflexivity.
  - reflexivity.
  - reflexivity.
  - reflexivity.
Defined.

Lemma fetch_all_ignores_later_totals_witness :
  exists k l,
    forall fuel, (k < fuel)%nat ->
      fst (fetch_all (fun _ => None) fuel "cr" "2025-01-01" "2025-12-31"
             (mk_fetcher one_by_one [] [])) = Ok (Some l)
      /\ fst (fetch_all (fun _ => None) fuel "cr" "2025-01-01" "2025-12-31"
                (mk_fetcher one_by_one_drifting [] [])) = Ok (Some l).
Proof.
  apply (fetch_all_ignores_later_totals (fun _ => None) "cr" "2025-01-01"
           "2025-12-31" (mk_fetcher one_by_one [] [])
           (mk_fetcher one_by_one_drifting [] [])).
  - intros n. exists [sample_item n], 2. split; reflexivity.
  - intros n. exists [sample_item n], (match n with 0%nat => 2 | _ => 7 end).
    split; [reflexivity|]. destruct n; reflexivity.
  - intros n. reflexivity.
  - reflexivity.
Defined.

Lemma cells_are_scalars_witness :
  is_scalar (JStr "") = true.
Proof.
  apply (cells_are_scalars (fun _ => "{}")
           [[("a", JStr "1"); ("b", JNull)]; [("a", JList [])]]
           [JStr "1"; JStr ""] (JStr "")).
  - right. left. reflexivity.
  - right. left. reflexivity.
Defined.

Lemma rows_of_keyless_records_witness :
  records_to_rows (fun _ => "{}") [[]; []]
  = [JStr "raw_json"]
      :: map (fun record => [JStr ((fun _ => "{}") (JDict record))]) [[]; []].
Proof.
  apply (rows_of_keyless_records (fun _ => "{}") [[]; []]).
  repeat constructor.
Defined.

Lemma sync_main_needs_configuration_witness :
  let args := mk_args "2025-01-01" "2025-12-31" (Some "") (Some "sheet")
                (Some "credentials.json") "CR" "CP" in
  let w := mk_sync (mk_fetcher single_pages [] []) sample_sheets in
  exists msg,
    sync_main (fun _ => None) (fun _ => "{}") 3 args w
    = (Raise (SystemExit msg), w).
Proof.
  intros args w.
  apply (sync_main_needs_configuration (fun _ => None) (fun _ => "{}") 3
           args w).
  left. reflexivity.
Defined.

Lemma sync_main_fetch_failure_witness :
  let net := mk_fetcher (fun _ => NetFail) [] [] in
  let w := mk_sync net sample_sheets in
  exists sheets',
    sync_main (fun _ => None) (fun _ => "{}") 3 sample_args w
    = (Raise ConnectionError,
       mk_sync (snd (fetch_all (fun _ => None) 3 CR_ENDPOINT "2025-01-01"
                       "2025-12-31" net)) sheets')
    /\ tab_get "CR" sheets' = Some []
    /\ tab_get "CP" sheets' = Some []
    /\ forall other, other <> "CR" -> other <> "CP" ->
                     tab_get other sheets' = tab_get other sample_sheets.
Proof.
  intros net w.
  apply (sync_main_fetch_failure (fun _ => None) (fun _ => "{}") 3
           sample_args w ConnectionError).
  - reflexivity.
  - reflexivity.
  - reflexivity.
  - left. reflexivity.
Defined.

Lemma sync_main_writes_both_tabs_witness :
  let net := mk_fetcher single_pages [] [] in
  let w := mk_sync net sample_sheets in
  exists rr rp sheets',
    map JDict rr = [sample_item 0]
    /\ map JDict rp = [sample_item 1]
    /\ sync_main (fun _ => None) (fun _ => "{}") 3 sample_args w
       = (Ok (Some tt),
          mk_sync
            (snd (fetch_all (fun _ => None) 3 CP_ENDPOINT "2025-01-01"
                    "2025-12-31"
                    (snd (fetch_all (fun _ => None) 3 CR_ENDPOINT "2025-01-01"
                            "2025-12-31" net))))
            sheets')
    /\ tab_get "CR" sheets' = Some (tab_content (fun _ => "{}") rr)
    /\ tab_get "CP" sheets' = Some (tab_content (fun _ => "{}") rp)
    /\ forall other, other <> "CR" -> other <> "CP" ->
                     tab_get other sheets' = tab_get other sample_sheets.
Proof.
  intros net w.
  apply (sync_main_writes_both_tabs (fun _ => None) (fun _ => "{}") 3
           sample_args w [sample_item 0] [sample_item 1]
           (snd (fetch_all (fun _ => None) 3 CR_ENDPOINT "2025-01-01"
                   "2025-12-31" net))).
  - reflexivity.
  - reflexivity.
  - reflexivity.
  - discriminate.
  - reflexivity.
  - reflexivity.
Defined.

Lemma get_access_token_asks_for_code_witness :
  let w := sample_world None 1000 NetFail in
  get_access_token (fun s => s) (fun s => s) sample_auth w
  = (Raise (SystemExit
              ("Defina CONTA_AZUL_AUTH_CODE com o codigo obtido em: "
               ++ authorization_url (fun s => s) sample_auth "state")%string),
     w).
Proof.
  intros w.
  apply (get_access_token_asks_for_code (fun s => s) (fun s => s)
           sample_auth w).
  - exact I.
  - reflexivity.
Defined.

Lemma get_access_token_expired_no_refresh_witness :
  let d := [("access_token", JStr "old"); ("expires_at", JNum 500);
            ("refresh_token", JStr "")] in
  let w := sample_world (Some (JDict d)) 1000 NetFail in
  get_access_token (fun s => s) (fun s => s) sample_auth w
  = (Raise (SystemExit
              ("Defina CONTA_AZUL_AUTH_CODE com o codigo obtido em: "
               ++ authorization_url (fun s => s) sample_auth "state")%string),
     tick w)
  /\ token_file (tick w) = Some (JDict d)
  /\ posts (tick w) = posts w
  /\ trace (tick w) = trace w.
Proof.
  intros d w.
  apply (get_access_token_expired_no_refresh (fun s => s) (fun s => s)
           sample_auth w d (JNum 500) 500).
  - reflexivity.
  - reflexivity.
  - reflexivity.
  - simpl. lia.
  - reflexivity.
  - reflexivity.
Defined.



Lemma token_answer_unusable_witness :
  let r := mk_response 200 ""
             (Some (JDict [("access_token", JStr "new");
                           ("expires_in", JStr "3600")])) in
  let w := sample_world None 1000 (Answer r) in
  exchange_code (fun s => s) sample_auth (JStr "abc") w
  = (Raise TypeError,
     tick (posted (exchange_request (fun s => s) sample_auth (JStr "abc")) w))
  /\ refresh (fun s => s) sample_auth (JStr "R1") w
     = (Raise TypeError,
        tick (posted (refresh_request (fun s => s) sample_auth (JStr "R1")) w))
  /\ forall q, token_file (tick (posted q w)) = token_file w.
Proof.
  intros r w.
  apply (token_answer_unusable (fun s => s) sample_auth w r
           (JDict [("access_token", JStr "new"); ("expires_in", JStr "3600")])
           (JStr "abc") (JStr "R1")); try reflexivity.
  exists (JStr "3600"). split; reflexivity.
Defined.






Lemma insert_records_bad_first_record_witness :
  insert_records 11 (fun _ v => v) (fun _ => None)
    [JDict []; JDict [("a", JStr "1")]] (mk_db None None false [])
  = (Raise OperationalError, mk_db None None false [])
  /\ insert_records 11 (fun _ v => v) (fun _ => None) [JStr "oops"]
       (mk_db None None false [])
     = (Raise AttributeError, mk_db None None false []).
Proof.
  destruct (insert_records_bad_first_record 11 (fun _ v => v) (fun _ => None)
              (mk_db None None false [])
              (JDict []) [JDict [("a", JStr "1")]] eq_refl) as [H1 _].
  destruct (insert_records_bad_first_record 11 (fun _ v => v) (fun _ => None)
              (mk_db None None false [])
              (JStr "oops") [] eq_refl) as [_ H2].
  split; [apply H1; reflexivity|apply H2; reflexivity].
Defined.

(** ** Where the claims on the token manager stop *)


(** A record without [expires_at] read at a negative clock, and a token
    saved without [expires_in] read after the clock was set back: both
    are served from the file. *)
Lemma unexpired_when_clock_is_back :
  let old := JDict [("access_token", JStr "old")] in
  let w0 := sample_world (Some old) (-1) NetFail in
  let w1 := sample_world None 1000
              (Answer (mk_response 200 ""
                         (Some (JDict [("access_token", JStr "new")])))) in
  let saved := JDict [("access_token", JStr "new");
                      ("expires_at", JNum 1000)] in
  let w2 := sample_world (Some saved) 999 NetFail in
  get_access_token (fun s => s) (fun s => s) sample_auth w0
  = (Ok (JStr "old"), tick w0)
  /\ token_file (snd (exchange_code (fun s => s) sample_auth (JStr "code") w1))
     = Some saved
  /\ get_access_token (fun s => s) (fun s => s) sample_auth w2
     = (Ok (JStr "new"), tick w2).
Proof. repeat split. Qed.
